(** * TimeFlow front-end: session store, API gateway client and route guards

    A shallow embedding of the authentication and access-control code of the
    TimeFlow React front-end, with the properties its specification states:

    - [lib/api.js]: [parseErrorMessage] and the two axios interceptors;
    - [context/AuthContext]: the [AuthProvider] session store with [logout],
      [hasRole], [canAccess] and the token effect;
    - [App.js]: the [ProtectedRoute] and [PublicRoute] guards and the route
      table of [AppRoutes].

    The request headers and [localStorage] are finite maps keyed by strings.
    An object literal used as a lookup table ([redirectMap], [permissions],
    [roleItems]) is a finite map of the entries written in it, and a lookup
    [obj[key]] also finds the members every object inherits from
    [Object.prototype] ([constructor], [toString], ...): see [Js.index].

    The file has two parts: the embedding (modules [Js], [Json], [Browser],
    [Api], [AuthContext], [App], the access policy as the specification
    words it in [Policy], sample data in [Examples], then [Config],
    [Routes], [Shell], [Pages], [Traces] and [Samples]) and then the
    properties (modules [PolicyFacts], [GuardFacts], [ApiFacts],
    [AuthFacts], and [ConfigFacts], [ApiMore], [ErrorFacts], [AuthMore],
    [ShellFacts], [PagesFacts]). *)

From Stdlib Require Import Ascii String ZArith.
From stdpp Require Import gmap strings list fin_maps pretty.

Local Open Scope string_scope.
Set Warnings "-register-all".

(** ** JavaScript operators on strings and string tables *)

Module Js.

(** Truthiness of a string: the empty string is the only falsy one. *)
Definition truthy_string (s : string) : bool :=
  match s with
  | EmptyString => false
  | String _ _ => true
  end.

(** Truthiness of a value that is [null]/[undefined] ([None]) or a string,
    as tested by [if (token)] and [if (config.url)]. *)
Definition truthy (o : option string) : bool :=
  match o with
  | None => false
  | Some s => truthy_string s
  end.

(** [a || b] where [a] is [undefined] or a string and [b] a string. *)
Definition or_else (a : option string) (b : string) : string :=
  match a with
  | Some s => if truthy_string s then s else b
  | None => b
  end.

(** [xs.includes(x)] on an array of strings, searched for a value that is a
    string or [undefined]: [undefined] is never found among strings. *)
Definition includes (xs : list string) (x : option string) : bool :=
  match x with
  | Some s => bool_decide (s ∈ xs)
  | None => false
  end.

(** The names of the members an object literal inherits from
    [Object.prototype]: the methods of the language and the accessors of its
    annex for browsers. Each of them is a function, or ([__proto__]) the
    prototype object: a truthy value that is neither a string nor an array. *)
Definition Object_prototype : list string :=
  [ "constructor"; "hasOwnProperty"; "isPrototypeOf"; "propertyIsEnumerable";
    "toLocaleString"; "toString"; "valueOf"; "__proto__";
    "__defineGetter__"; "__defineSetter__"; "__lookupGetter__";
    "__lookupSetter__" ].

(** What [obj[key]] finds in an object literal: an entry written in the
    literal, a member inherited from [Object.prototype], or nothing
    ([undefined]). *)
Inductive property (V : Type) :=
  | Own (v : V)
  | Inherited (name : string)
  | Undefined.
Arguments Own {V} v.
Arguments Inherited {V} name.
Arguments Undefined {V}.

(** The key names a member of [Object.prototype]. The key [undefined] reads
    the property named [undefined], which is not one. *)
Definition inherits (key : option string) : bool :=
  match key with
  | Some k => bool_decide (k ∈ Object_prototype)
  | None => false
  end.

(** [obj[key]] on an object literal whose entries are [obj]; no table of the
    program has an entry named [undefined]. *)
Definition index {V} (obj : gmap string V) (key : option string)
  : property V :=
  match key with
  | Some k =>
      match obj !! k with
      | Some v => Own v
      | None => if inherits key then Inherited k else Undefined
      end
  | None => Undefined
  end.

(** The value of [obj[key] || fallback] for a table of strings: a string, or
    the inherited member that the lookup found. *)
Inductive value :=
  | Str (s : string)
  | Member (name : string).

(** [p || fallback], [p] the result of a lookup in a table of strings. *)
Definition or_default (p : property string) (fallback : string) : value :=
  match p with
  | Own s => if truthy_string s then Str s else Str fallback
  | Inherited name => Member name
  | Undefined => Str fallback
  end.

(** How an evaluation ends: with a value, or by throwing. *)
Inductive completion (A : Type) :=
  | Normal (a : A)
  | Throws (error : string).
Arguments Normal {A} a.
Arguments Throws {A} error.

#[export] Instance completion_bind : MBind completion :=
  λ A B k c,
    match c with
    | Normal a => k a
    | Throws e => Throws e
    end.

#[export] Instance completion_ret : MRet completion := λ A a, Normal a.

(** [xs.map(f)] for a callback that may throw: stops at the first throw. *)
Definition map_throwing {A B} (f : A → completion B)
  : list A → completion (list B) :=
  fix go xs :=
    match xs with
    | [] => Normal []
    | x :: rest => y ← f x; ys ← go rest; mret (y :: ys)
    end.

(** [s.endsWith(c)] for a one-character [c]. *)
Fixpoint endsWith (c : ascii) (s : string) : bool :=
  match s with
  | EmptyString => false
  | String a EmptyString => Ascii.eqb a c
  | String _ s' => endsWith c s'
  end.

(** [s.includes(c)] for a one-character [c]. *)
Fixpoint contains (c : ascii) (s : string) : bool :=
  match s with
  | EmptyString => false
  | String a s' => if Ascii.eqb a c then true else contains c s'
  end.

(** [s.split(c)] for a one-character separator: never the empty array. *)
Fixpoint split (c : ascii) (s : string) : list string :=
  match s with
  | EmptyString => [EmptyString]
  | String a s' =>
      if Ascii.eqb a c then EmptyString :: split c s'
      else match split c s' with
           | p :: ps => String a p :: ps
           | [] => [String a EmptyString]
           end
  end.

(** [xs.join(sep)] on strings. *)
Fixpoint join (sep : string) (xs : list string) : string :=
  match xs with
  | [] => EmptyString
  | [x] => x
  | x :: rest => x ++ sep ++ join sep rest
  end.

End Js.

(** ** JSON payloads *)

Module Json.
Import (hints) Js.

(** A parsed JSON document, as axios hands it over in [response.data].
    Numbers are the integers that a JavaScript number holds exactly; an
    object keeps its fields in order, each name once. *)
Inductive json :=
  | JNull
  | JBool (b : bool)
  | JNum (n : Z)
  | JStr (s : string)
  | JArr (items : list json)
  | JObj (fields : list (string * json)).

(** Truthiness of a JSON value. *)
Definition truthy (v : json) : bool :=
  match v with
  | JNull => false
  | JBool b => b
  | JNum n => negb (Z.eqb n 0)
  | JStr s => Js.truthy_string s
  | JArr _ | JObj _ => true
  end.

Fixpoint assoc (k : string) (fields : list (string * json)) : option json :=
  match fields with
  | [] => None
  | (k', v) :: rest => if String.eqb k' k then Some v else assoc k rest
  end.

(** [v.k] on a value that is not [null]: [undefined] ([None]) unless [v] is
    an object with a field [k]. *)
Definition get (v : json) (k : string) : option json :=
  match v with
  | JObj fields => assoc k fields
  | _ => None
  end.

(** [v?.k]: as [get], and [undefined] on [null] too. *)
Definition get_opt (v : option json) (k : string) : option json :=
  v ≫= λ o, get o k.

(** The two conversions of the runtime that [parseErrorMessage] relies on:
    [JSON.stringify] and the string conversion that [Array.prototype.join]
    applies to an element that is not a string. *)
Class Runtime := {
  JSON_stringify : json → string;
  ToString : json → Js.completion string;
}.

(** The element conversion of [join]: a string is taken as it is, [null]
    becomes the empty string, anything else goes through the string
    conversion, which throws on an object it cannot convert. *)
Definition join_item `{Runtime} (v : json) : Js.completion string :=
  match v with
  | JStr s => Js.Normal s
  | JNull => Js.Normal EmptyString
  | _ => ToString v
  end.

(** *** A reference runtime, to evaluate examples *)

Definition hex_digit (n : N) : ascii :=
  match n with
  | 0 => "0" | 1 => "1" | 2 => "2" | 3 => "3" | 4 => "4" | 5 => "5"
  | 6 => "6" | 7 => "7" | 8 => "8" | 9 => "9" | 10 => "a" | 11 => "b"
  | 12 => "c" | 13 => "d" | 14 => "e" | _ => "f"
  end%N%char.

(** The double quote, as a one-character string. *)
Definition dquote : string := String (ascii_of_N 34) EmptyString.

(** The escape of one character inside a JSON string literal. *)
Definition escape_char (a : ascii) : string :=
  let n := N_of_ascii a in
  if (n =? 34)%N then String "\" dquote
  else if (n =? 92)%N then "\\"
  else if (n =? 8)%N then "\b"
  else if (n =? 9)%N then "\t"
  else if (n =? 10)%N then "\n"
  else if (n =? 12)%N then "\f"
  else if (n =? 13)%N then "\r"
  else if (n <? 32)%N then
    "\u00" ++ String (hex_digit (n / 16))
                 (String (hex_digit (n mod 16)) EmptyString)
  else String a EmptyString.

Fixpoint escape (s : string) : string :=
  match s with
  | EmptyString => EmptyString
  | String a s' => escape_char a ++ escape s'
  end.

Definition quote (s : string) : string := dquote ++ escape s ++ dquote.

(** [JSON.stringify] on a parsed document; a number is printed in digits,
    as the integers that a JavaScript number holds exactly are. *)
Fixpoint stringify (v : json) : string :=
  match v with
  | JNull => "null"
  | JBool true => "true"
  | JBool false => "false"
  | JNum n => pretty n
  | JStr s => quote s
  | JArr items => "[" ++ Js.join "," (map stringify items) ++ "]"
  | JObj fields =>
      "{" ++ Js.join ","
               (map (λ kv, quote (fst kv) ++ ":" ++ stringify (snd kv)) fields)
          ++ "}"
  end.

(** The string conversion. An array joins the conversions of its elements.
    An object parsed from JSON converts through the [toString] it inherits,
    unless it has a field of that name: a field is not a function, the
    conversion then turns to [valueOf], which gives no primitive value
    either, and throws. *)
Fixpoint to_string (v : json) : Js.completion string :=
  match v with
  | JNull => Js.Normal "null"
  | JBool true => Js.Normal "true"
  | JBool false => Js.Normal "false"
  | JNum n => Js.Normal (pretty n)
  | JStr s => Js.Normal s
  | JArr items =>
      strs ← Js.map_throwing
                (λ x, match x with
                      | JNull => Js.Normal EmptyString
                      | _ => to_string x
                      end)
                items;
      mret (Js.join "," strs)
  | JObj fields =>
      match assoc "toString" fields with
      | Some _ => Js.Throws "TypeError"
      | None => Js.Normal "[object Object]"
      end
  end.

Definition reference_runtime : Runtime :=
  {| JSON_stringify := stringify; ToString := to_string |}.

End Json.

(** ** The browser: durable storage, location and the calls made to it *)

Module Browser.

(** An outgoing request, as axios passes it to a request interceptor. *)
Inductive Body :=
  | NoBody
  | FormBody (params : list (string * string))
  | JsonBody (payload : Json.json).

Record RequestConfig := mkRequestConfig {
  url : option string;
  method : string;
  data : Body;
  headers : gmap string string;
}.

(** The calls with an effect outside the page's own state, in the order
    the code makes them. *)
Inductive Action :=
  | RemoveItem (key : string)
  | SetItem (key value : string)
  | AssignHref (target : string)
  | Send (config : RequestConfig).

(** [localStorage], [window.location] and the journal of the calls made.
    [pathname] is the path of the document being shown; [href] is the last
    target assigned to [window.location.href], a navigation the browser has
    yet to carry out: the assignment leaves [pathname] as it is until the new
    document is loaded. *)
Record t := mk {
  localStorage : gmap string string;
  pathname : string;
  href : option string;
  journal : list Action;
}.

Definition getItem (key : string) (b : t) : option string :=
  localStorage b !! key.

Definition removeItem (key : string) (b : t) : t :=
  {| localStorage := delete key (localStorage b);
     pathname := pathname b;
     href := href b;
     journal := journal b ++ [RemoveItem key] |}.

Definition setItem (key value : string) (b : t) : t :=
  {| localStorage := <[key := value]> (localStorage b);
     pathname := pathname b;
     href := href b;
     journal := journal b ++ [SetItem key value] |}.

(** [window.location.href = target]. *)
Definition assign_href (target : string) (b : t) : t :=
  {| localStorage := localStorage b;
     pathname := pathname b;
     href := Some target;
     journal := journal b ++ [AssignHref target] |}.

(** The request leaves for the network. *)
Definition send (config : RequestConfig) (b : t) : t :=
  {| localStorage := localStorage b;
     pathname := pathname b;
     href := href b;
     journal := journal b ++ [Send config] |}.

(** A document freshly loaded at [path] over the storage [ls]. *)
Definition load (ls : gmap string string) (path : string) : t :=
  {| localStorage := ls; pathname := path; href := None; journal := [] |}.

Definition is_RemoveItem (key : string) (a : Action) : bool :=
  match a with
  | RemoveItem k => String.eqb k key
  | _ => false
  end.

Definition is_AssignHref (target : string) (a : Action) : bool :=
  match a with
  | AssignHref u => String.eqb u target
  | _ => false
  end.

Definition is_Send (a : Action) : bool :=
  match a with
  | Send _ => true
  | _ => false
  end.

(** How many times a kind of call appears in a journal. *)
Definition occurrences (p : Action → bool) (l : list Action) : nat :=
  length (filter (λ a, p a = true) l).

End Browser.

(** ** [lib/api.js]: the API gateway client *)

Module Api.
Export (hints) Js.
Export Js(completion, Normal, Throws, map_throwing).
Import Json Browser.

Record Response := mkResponse {
  status : Z;
  body : json;
}.

(** The error axios rejects with; [response] is absent when the request
    never got an answer. [body] is [response.data]. *)
Record AxiosError := mkAxiosError {
  response : option Response;
}.

(** [a || b] on JSON values, [a] possibly [undefined]. *)
Definition or_json (a : option json) (b : json) : json :=
  match a with
  | Some v => if Json.truthy v then v else b
  | None => b
  end.

Section parseErrorMessage.
Context `{Runtime}.

(** [d.msg || d.message || JSON.stringify(d)] for [d] other than [null]. *)
Definition message_of (d : json) : json :=
  or_json (get d "msg") (or_json (get d "message") (JStr (JSON_stringify d))).

(** The callback of [detail.map]: reading [d.msg] of [null] throws. *)
Definition message_of_item (d : json) : completion json :=
  match d with
  | JNull => Throws "TypeError"
  | _ => Normal (message_of d)
  end.

(** [error.response?.data?.detail]. *)
Definition detail_of (error : AxiosError) : option json :=
  match response error with
  | None => None
  | Some r =>
      match body r with
      | JNull => None
      | d => get d "detail"
      end
  end.

Definition parseErrorMessage (error : AxiosError)
    (defaultMessage : option string) : completion json :=
  let defaultMessage := default "Server error" defaultMessage in
  match detail_of error with
  | Some detail =>
      if Json.truthy detail then
        match detail with
        | JStr s => Normal (JStr s)
        | JArr items =>
            ms ← map_throwing message_of_item items;
            strs ← map_throwing join_item ms;
            mret (JStr (Js.join ", " strs))
        | JObj _ => Normal (message_of detail)
        | _ => Normal (JStr defaultMessage)
        end
      else Normal (JStr defaultMessage)
  | None => Normal (JStr defaultMessage)
  end.

End parseErrorMessage.

(** The URL rewriting of the request interceptor: a slash is put at the end
    of the path, before the query string if there is one. *)
Definition with_trailing_slash (u : option string) : option string :=
  match u with
  | Some s =>
      if Js.truthy_string s && negb (Js.endsWith "/" s)
         && negb (Js.contains "?" s)
      then Some (s ++ "/")
      else if Js.truthy_string s && Js.contains "?" s
              && negb (Js.endsWith "/" (default "undefined"
                                          (Js.split "?" s !! 0%nat)))
      then
        let parts := Js.split "?" s in
        let path := default "undefined" (parts !! 0%nat) in
        let query := default "undefined" (parts !! 1%nat) in
        Some (path ++ "/?" ++ query)
      else Some s
  | None => None
  end.

(** [config.headers.Authorization = `Bearer ${token}`] when [token] is
    truthy. *)
Definition with_token (token : option string) (h : gmap string string)
  : gmap string string :=
  match token with
  | Some t => if Js.truthy_string t then <["Authorization" := "Bearer " ++ t]> h
              else h
  | None => h
  end.

(** The request interceptor of [lib/api.js]. *)
Definition request_fulfilled (b : Browser.t) (config : RequestConfig)
  : RequestConfig :=
  let token := getItem "token" b in
  {| url := with_trailing_slash (url config);
     method := method config;
     data := data config;
     headers := with_token token (headers config) |}.

(** The request interceptor of the other copy of [api.js] in the repository,
    which only adds the token. *)
Definition request_fulfilled_token_only (b : Browser.t)
    (config : RequestConfig) : RequestConfig :=
  let token := getItem "token" b in
  {| url := url config;
     method := method config;
     data := data config;
     headers := with_token token (headers config) |}.

(** A settled promise. *)
Inductive settled (A E : Type) :=
  | Resolved (a : A)
  | Rejected (e : E).
Arguments Resolved {A E} a.
Arguments Rejected {A E} e.

(** The response interceptor, success side: [(response) => response]. *)
Definition response_fulfilled (r : Response) : Response := r.

(** [error.response?.status === 401]. *)
Definition is_401 (error : AxiosError) : bool :=
  match response error with
  | Some r => Z.eqb (status r) 401
  | None => false
  end.

(** The response interceptor, error side: its effect on the browser. *)
Definition on_rejected (error : AxiosError) (b : Browser.t) : Browser.t :=
  if is_401 error then
    let b := removeItem "token" b in
    if negb (String.eqb (pathname b) "/login") then assign_href "/login" b
    else b
  else b.

(** The response interceptor, error side: the effect and the promise it
    returns, [Promise.reject(error)]. *)
Definition response_rejected (error : AxiosError) (b : Browser.t)
  : Browser.t * settled Response AxiosError :=
  (on_rejected error b, Rejected error).

(** Several failed responses, handled one after the other in the same
    document. *)
Definition handle_all (errors : list AxiosError) (b : Browser.t)
  : Browser.t :=
  foldl (λ b e, fst (response_rejected e b)) b errors.

(** How many of the errors are 401 responses. *)
Definition count_401 (errors : list AxiosError) : nat :=
  length (filter (λ e, is_401 e = true) errors).

End Api.

(** ** [context/AuthContext]: the session store *)

Module AuthContext.
Import Browser Api.

(** The user record answered by [/auth/login], [/auth/register] and
    [/auth/me]. [role] is [None] when the record has no [role] field. *)
Record Identity := mkIdentity {
  email : string;
  first_name : string;
  last_name : string;
  phone : string;
  role : option string;
}.

(** The state of [AuthProvider] ([user], [token], [loading]) together with
    the browser it runs in. [inflight] counts the [/auth/me] requests sent by
    [fetchUser] and not answered yet. *)
Record Session := mkSession {
  browser : Browser.t;
  user : option Identity;
  token : option string;
  loading : bool;
  inflight : nat;
}.

Definition setUser (u : option Identity) (s : Session) : Session :=
  {| browser := browser s; user := u; token := token s;
     loading := loading s; inflight := inflight s |}.

Definition setToken (t : option string) (s : Session) : Session :=
  {| browser := browser s; user := user s; token := t;
     loading := loading s; inflight := inflight s |}.

Definition setLoading (l : bool) (s : Session) : Session :=
  {| browser := browser s; user := user s; token := token s;
     loading := l; inflight := inflight s |}.

Definition on_browser (f : Browser.t → Browser.t) (s : Session) : Session :=
  {| browser := f (browser s); user := user s; token := token s;
     loading := loading s; inflight := inflight s |}.

Definition set_inflight (n : nat) (s : Session) : Session :=
  {| browser := browser s; user := user s; token := token s;
     loading := loading s; inflight := n |}.

(** Everything in a session but the journal of the calls made. *)
Definition state_of (s : Session) :=
  (localStorage (browser s), pathname (browser s), href (browser s),
   user s, token s, loading s, inflight s).

(** The [useState] initial values. *)
Definition init (b : Browser.t) : Session :=
  {| browser := b; user := None; token := getItem "token" b;
     loading := true; inflight := 0 |}.

(** [api.get(path)]: the request passes the request interceptor and leaves. *)
Definition api_get (path : string) (b : Browser.t) : Browser.t :=
  send (request_fulfilled b
          {| url := Some path; method := "get"; data := NoBody;
             headers := ∅ |}) b.

(** [api.post(path, body, {headers})]. *)
Definition api_post (path : string) (payload : Body)
    (h : gmap string string) (b : Browser.t) : Browser.t :=
  send (request_fulfilled b
          {| url := Some path; method := "post"; data := payload;
             headers := h |}) b.

(** [fetchUser], up to its [await]: the request is sent. *)
Definition fetchUser_start (s : Session) : Session :=
  set_inflight (S (inflight s)) (on_browser (api_get "/auth/me") s).

(** [logout]. *)
Definition logout (s : Session) : Session :=
  setUser None (setToken None (on_browser (removeItem "token") s)).

(** [fetchUser], after the [await], when the request succeeded:
    [setUser(response.data)] and then, in [finally], [setLoading(false)]. *)
Definition fetchUser_resolved (u : Identity) (s : Session) : Session :=
  set_inflight (pred (inflight s)) (setLoading false (setUser (Some u) s)).

(** [fetchUser], after the [await], when the request failed: the response
    interceptor has seen the error, then [catch] calls [logout] and
    [finally] [setLoading(false)]. *)
Definition fetchUser_rejected (e : AxiosError) (s : Session) : Session :=
  set_inflight (pred (inflight s))
    (setLoading false (logout (on_browser (on_rejected e) s))).

(** The body of [useEffect(..., [token])]. *)
Definition token_effect (s : Session) : Session :=
  if Js.truthy (token s) then fetchUser_start s else setLoading false s.

(** After an update is committed React runs the effect again when its
    dependency [token] differs from the one of the previous render. *)
Definition rerender (previous : option string) (s : Session) : Session :=
  if decide (token s = previous) then s else token_effect s.

(** The first render of [AuthProvider] in a loaded document, and its
    effect. *)
Definition mount (b : Browser.t) : Session := token_effect (init b).

(** [login(email, password)] with the answer [{access_token, user}]. *)
Definition login (email password : string) (access_token : string)
    (userData : Identity) (s : Session) : Session :=
  let s := on_browser
             (api_post "/auth/login"
                (FormBody [("username", email); ("password", password)])
                {["Content-Type" := "application/x-www-form-urlencoded"]}) s in
  let s := on_browser (setItem "token" access_token) s in
  setUser (Some userData) (setToken (Some access_token) s).

(** [register(userData)] with the answer [{access_token, user}]. *)
Definition register (profile : Json.json) (access_token : string)
    (newUser : Identity) (s : Session) : Session :=
  let s := on_browser (api_post "/auth/register" (JsonBody profile) ∅) s in
  let s := on_browser (setItem "token" access_token) s in
  setUser (Some newUser) (setToken (Some access_token) s).

(** [updateUser(userData)]. *)
Definition updateUser (userData : Identity) (s : Session) : Session :=
  setUser (Some userData) s.

(** [isAuthenticated: !!user]. *)
Definition isAuthenticated (s : Session) : bool :=
  match user s with
  | Some _ => true
  | None => false
  end.

(** The argument of [hasRole]: one role name or an array of them. *)
Inductive Roles :=
  | OneRole (name : string)
  | RoleList (names : list string).

Definition hasRole (roles : Roles) (s : Session) : bool :=
  match user s with
  | None => false
  | Some u =>
      match roles with
      | OneRole name => bool_decide (role u = Some name)
      | RoleList names => Js.includes names (role u)
      end
  end.

(** The [permissions] table of [canAccess]. *)
Definition permissions : gmap string (list string) :=
  <["super_admin" := ["all"]]>
  (<["admin" := ["businesses"; "users"; "services"; "staff"; "appointments";
                 "clients"; "finance"; "reports"]]>
  (<["business" := ["services"; "staff"; "appointments"; "clients";
                    "finance"; "reports"]]>
  (<["staff" := ["appointments"; "calendar"]]>
  (<["client" := ["my_appointments"]]> ∅)))).

(** [canAccess(resource)]. For a role that names a member inherited from
    [Object.prototype], [permissions[user.role]] is that member: it is
    truthy, so [|| []] does not replace it, and it has no [includes] method,
    so the call throws. *)
Definition canAccess (resource : string) (s : Session) : completion bool :=
  match user s with
  | None => Normal false
  | Some u =>
      match Js.index permissions (role u) with
      | Js.Own userPermissions =>
          Normal (Js.includes userPermissions (Some "all")
                  || Js.includes userPermissions (Some resource))
      | Js.Undefined =>
          let userPermissions := [] in
          Normal (Js.includes userPermissions (Some "all")
                  || Js.includes userPermissions (Some resource))
      | Js.Inherited _ => Throws "TypeError"
      end
  end.

(** *** The store as a transition system

    What can happen to a mounted session: an answer to a pending [/auth/me]
    arrives, one of the store's operations is called, some other API call
    fails, the router changes the path, or the browser carries out the
    navigation that the response interceptor asked for. The statements of
    one continuation are committed together. *)
Inductive Event :=
  | MeResolved (u : Identity)
  | MeRejected (e : AxiosError)
  | Login (email password : string) (access_token : string) (u : Identity)
  | LoginRejected (email password : string) (e : AxiosError)
  | Register (profile : Json.json) (access_token : string) (u : Identity)
  | Logout
  | UpdateUser (u : Identity)
  | ApiRejected (e : AxiosError)
  | Routed (path : string)
  | Navigated.

Definition set_pathname (path : string) (b : Browser.t) : Browser.t :=
  {| localStorage := localStorage b; pathname := path; href := href b;
     journal := journal b |}.

(** [None] when the event cannot happen in [s]. *)
Definition step (ev : Event) (s : Session) : option Session :=
  match ev with
  | MeResolved u =>
      if bool_decide (0 < inflight s) then Some (fetchUser_resolved u s)
      else None
  | MeRejected e =>
      if bool_decide (0 < inflight s)
      then Some (rerender (token s) (fetchUser_rejected e s))
      else None
  | Login em pw t u => Some (rerender (token s) (login em pw t u s))
  | LoginRejected em pw e =>
      Some (on_browser (on_rejected e)
              (on_browser
                 (api_post "/auth/login"
                    (FormBody [("username", em); ("password", pw)])
                    {["Content-Type" := "application/x-www-form-urlencoded"]})
                 s))
  | Register p t u => Some (rerender (token s) (register p t u s))
  | Logout => Some (rerender (token s) (logout s))
  | UpdateUser u => Some (updateUser u s)
  | ApiRejected e => Some (on_browser (on_rejected e) s)
  | Routed path => Some (on_browser (set_pathname path) s)
  | Navigated =>
      match href (browser s) with
      | Some target =>
          Some (mount (Browser.load (localStorage (browser s)) target))
      | None => None
      end
  end.

Fixpoint run (evs : list Event) (s : Session) : option Session :=
  match evs with
  | [] => Some s
  | ev :: rest => s' ← step ev s; run rest s'
  end.

(** The sessions the store can be in, from a document loaded at any path
    over any storage. *)
Definition reachable (s : Session) : Prop :=
  ∃ ls path evs, run evs (mount (Browser.load ls path)) = Some s.

(** An event applied while it is current: an answer to [/auth/me] or a
    confirmed profile update reaches a session that still holds a token. *)
Definition timely (ev : Event) (s : Session) : bool :=
  match ev with
  | MeResolved _ | UpdateUser _ => bool_decide (is_Some (token s))
  | _ => true
  end.

(** The token kept in memory is absent only if the Identity is. *)
Definition consistent (s : Session) : Prop :=
  token s = None → user s = None.

Fixpoint run_timely (evs : list Event) (s : Session) : option Session :=
  match evs with
  | [] => Some s
  | ev :: rest =>
      if timely ev s then s' ← step ev s; run_timely rest s' else None
  end.

(** An event that the pages of the application can bring about in [s].
    [login] is called by the login form and [register] by the registration
    form, which [PublicRoute] shows only once [loading] is false;
    [updateUser] is called by the settings screen, which [ProtectedRoute]
    shows only once [loading] is false. Nothing sets [loading] back to true
    in a loaded document, so it is still false when the call is answered. *)
Definition offered (ev : Event) (s : Session) : bool :=
  match ev with
  | Login _ _ _ _ | Register _ _ _ | UpdateUser _ => negb (loading s)
  | _ => true
  end.

(** A run in which every event is one the pages offer. *)
Fixpoint run_offered (evs : list Event) (s : Session) : option Session :=
  match evs with
  | [] => Some s
  | ev :: rest =>
      if offered ev s then s' ← step ev s; run_offered rest s' else None
  end.

(** The sessions the application can be in, from a document loaded at any
    path over any storage. *)
Definition in_use (s : Session) : Prop :=
  ∃ ls path evs, run_offered evs (mount (Browser.load ls path)) = Some s.

(** Holding an Identity, or holding no token, the session has finished
    loading. *)
Definition settled_session (s : Session) : Prop :=
  (user s ≠ None → loading s = false) ∧ (token s = None → loading s = false).

End AuthContext.

(** ** [App.js]: the route guards and the route table *)

Module App.
Import AuthContext.

(** What a guard returns: the loading spinner, a [<Navigate>] element, or
    the children it was given. The target of [<Navigate>] is the value of
    an expression [redirectMap[role] || '/'], or a path written as such. *)
Inductive Element (C : Type) :=
  | Spinner
  | Navigate (to : Js.value) (replace : bool)
  | Children (children : C).
Arguments Spinner {C}.
Arguments Navigate {C} to replace.
Arguments Children {C} children.

(** [user?.role]. *)
Definition role_of (user : option Identity) : option string :=
  user ≫= role.

(** The [redirectMap] literal of [ProtectedRoute]. *)
Definition ProtectedRoute_redirectMap : gmap string string :=
  <["super_admin" := "/admin"]>
  (<["admin" := "/admin"]>
  (<["business" := "/business"]>
  (<["staff" := "/staff"]>
  (<["client" := "/client"]> ∅)))).

(** [redirectMap[role] || '/'] in [ProtectedRoute], for [role] the value of
    [user?.role]. *)
Definition ProtectedRoute_redirect (role : option string) : Js.value :=
  Js.or_default (Js.index ProtectedRoute_redirectMap role) "/".

Definition ProtectedRoute {C} (s : Session)
    (allowedRoles : option (list string)) (children : C) : Element C :=
  if loading s then Spinner
  else if negb (isAuthenticated s) then Navigate (Js.Str "/login") true
  else if match allowedRoles with
          | Some rs => negb (Js.includes rs (role_of (user s)))
          | None => false
          end
  then Navigate (ProtectedRoute_redirect (role_of (user s))) true
  else Children children.

(** The [redirectMap] literal of [PublicRoute]. *)
Definition PublicRoute_redirectMap : gmap string string :=
  <["super_admin" := "/admin"]>
  (<["admin" := "/admin"]>
  (<["business" := "/business"]>
  (<["staff" := "/staff"]>
  (<["client" := "/client"]> ∅)))).

(** [redirectMap[role] || '/'] in [PublicRoute]. *)
Definition PublicRoute_redirect (role : option string) : Js.value :=
  Js.or_default (Js.index PublicRoute_redirectMap role) "/".

Definition PublicRoute {C} (s : Session) (children : C) : Element C :=
  if loading s then Spinner
  else if isAuthenticated s
  then Navigate (PublicRoute_redirect (role_of (user s))) true
  else Children children.

(** The pages that [AppRoutes] mounts at the top level. *)
Inductive Page :=
  | Landing
  | Login
  | Register
  | DashboardLayout.

(** The [element] of a top-level [<Route>]. *)
Inductive RouteElement :=
  | Plain (page : Page)
  | Public (page : Page)
  | Protected (allowedRoles : list string) (page : Page)
  | Redirect (to : string).

(** The top-level routes of [AppRoutes], in order; the screens of a
    dashboard are nested under its guard. *)
Definition AppRoutes : list (string * RouteElement) :=
  [ ("/", Plain Landing);
    ("/login", Public Login);
    ("/register", Public Register);
    ("/admin", Protected ["super_admin"; "admin"] DashboardLayout);
    ("/business", Protected ["business"] DashboardLayout);
    ("/staff", Protected ["staff"] DashboardLayout);
    ("/client", Protected ["client"] DashboardLayout);
    ("*", Redirect "/") ].

Definition render (s : Session) (e : RouteElement) : Element Page :=
  match e with
  | Plain page => Children page
  | Public page => PublicRoute s page
  | Protected allowedRoles page => ProtectedRoute s (Some allowedRoles) page
  | Redirect to => Navigate (Js.Str to) true
  end.

End App.

(** ** The access policy, as the specification words it *)

Module Policy.

(** The five roles of the data model. *)
Definition roles : list string :=
  ["super_admin"; "admin"; "business"; "staff"; "client"].

(** [homeRouteFor(role)], by cases on the role. *)
Definition homeRouteFor (role : option string) : string :=
  match role with
  | Some r =>
      if decide (r = "super_admin") then "/admin"
      else if decide (r = "admin") then "/admin"
      else if decide (r = "business") then "/business"
      else if decide (r = "staff") then "/staff"
      else if decide (r = "client") then "/client"
      else "/"
  | None => "/"
  end.

(** [permittedResources(role)] for the roles that have a fixed set. *)
Definition permittedResources (role : option string) : list string :=
  match role with
  | Some r =>
      if decide (r = "admin") then
        ["businesses"; "users"; "services"; "staff"; "appointments";
         "clients"; "finance"; "reports"]
      else if decide (r = "business") then
        ["services"; "staff"; "appointments"; "clients"; "finance"; "reports"]
      else if decide (r = "staff") then ["appointments"; "calendar"]
      else if decide (r = "client") then ["my_appointments"]
      else []
  | None => []
  end.

(** A role may access a resource: [super_admin] all of them, another role
    those of its set. *)
Definition permits (role : option string) (resource : string) : Prop :=
  role = Some "super_admin" ∨ resource ∈ permittedResources role.

End Policy.

(** ** Sample identities and sessions *)

Module Examples.
Import Browser Api AuthContext.

Definition member (role : string) : Identity :=
  {| email := "ana@example.com"; first_name := "Ana"; last_name := "Diaz";
     phone := "555-0100"; role := Some role |}.

(** A first visit: nothing stored. *)
Definition visitor : Session := mount (Browser.load ∅ "/login").

(** The visitor after a login answered with a token and an Identity of the
    given role. *)
Definition signed_in (role : string) : Session :=
  rerender (token visitor)
    (login "ana@example.com" "secret" "jwt-1" (member role) visitor).

(** A return visit with a stored token, while [/auth/me] is pending. *)
Definition returning : Session :=
  mount (Browser.load {["token" := "jwt-0"]} "/client").

(** A rejection whose [detail] is an object with a message. *)
Definition conflict : AxiosError :=
  {| response :=
       Some {| status := 409;
               body := Json.JObj
                         [("detail",
                           Json.JObj [("msg", Json.JStr "Email taken")])] |} |}.

(** A validation failure, with a list of structured messages. *)
Definition invalid : AxiosError :=
  {| response :=
       Some {| status := 422;
               body := Json.JObj
                 [("detail",
                   Json.JArr
                     [Json.JObj [("loc", Json.JArr [Json.JStr "email"]);
                                 ("msg", Json.JStr "field required")];
                      Json.JObj [("loc", Json.JArr [Json.JStr "phone"]);
                                 ("msg", Json.JStr "too short")]])] |} |}.

(** A visit in which the answer to [/auth/me] arrives after the logout. *)
Definition late_answer : list Event :=
  [Login "ana@example.com" "secret" "jwt-1" (member "client");
   Routed "/client";
   Logout;
   Routed "/";
   MeResolved (member "client")].

(** The session that visit ends in. *)
Definition after_late_answer : Session :=
  let s := on_browser (set_pathname "/client") (signed_in "client") in
  let s := rerender (token s) (logout s) in
  fetchUser_resolved (member "client") (on_browser (set_pathname "/") s).

Definition unauthorized : AxiosError :=
  {| response := Some {| status := 401; body := Json.JNull |} |}.

(** A failure whose list holds no [null], and an item whose message is an
    object with a field named [toString]. *)
Definition unprintable : AxiosError :=
  {| response :=
       Some {| status := 422;
               body := Json.JObj
                 [("detail",
                   Json.JArr
                     [Json.JObj
                        [("msg",
                          Json.JObj [("toString", Json.JNum 1)])]])] |} |}.

(** A session whose Identity has a role named as a member that every object
    inherits. *)
Definition odd_role : Session := signed_in "constructor".

(** A visit in which every answer arrives while the token is held. *)
Definition timely_visit : list Event :=
  [Login "ana@example.com" "secret" "jwt-1" (member "staff");
   MeResolved (member "staff");
   UpdateUser (member "staff");
   ApiRejected unauthorized;
   Logout].

(** The session that visit ends in. *)
Definition after_timely_visit : Session :=
  let s := fetchUser_resolved (member "staff") (signed_in "staff") in
  let s := updateUser (member "staff") s in
  let s := on_browser (on_rejected unauthorized) s in
  rerender (token s) (logout s).

End Examples.

(** ** [lib/api.js]: the base URL *)

Module Config.

(** [s.startsWith(p)]. *)
Fixpoint startsWith (p s : string) : bool :=
  match p, s with
  | EmptyString, _ => true
  | String _ _, EmptyString => false
  | String a p', String b s' => Ascii.eqb a b && startsWith p' s'
  end.

(** [s.slice(n)]: [s] without its first [n] characters. *)
Fixpoint drop (n : nat) (s : string) : string :=
  match n, s with
  | O, _ => s
  | S _, EmptyString => EmptyString
  | S n', String _ s' => drop n' s'
  end.

(** [s.replace(pat, rep)] for a string pattern: the first occurrence of
    [pat] in [s], if there is one, is replaced by [rep]. *)
Fixpoint replace_first (pat rep s : string) : string :=
  if startsWith pat s then rep ++ drop (String.length pat) s
  else match s with
       | EmptyString => EmptyString
       | String a s' => String a (replace_first pat rep s')
       end.

(** [getBaseUrl()], given [process.env.REACT_APP_BACKEND_URL] and
    [window.location.protocol]. *)
Definition getBaseUrl (env : option string) (protocol : string) : string :=
  let url := Js.or_else env EmptyString in
  if Js.truthy_string url && negb (startsWith "https://" url)
     && String.eqb protocol "https:"
  then replace_first "http://" "https://" url
  else url.

(** [API_URL]. *)
Definition API_URL (env : option string) (protocol : string) : string :=
  getBaseUrl env protocol ++ "/api".

End Config.

(** ** [App.js]: the screens nested under each dashboard *)

Module Routes.

Inductive Screen :=
  | Dashboard
  | Appointments
  | Businesses
  | Services
  | Staff
  | UsersPage
  | Clients
  | Finance
  | PlatformFinance
  | Reports
  | Settings.

(** The child routes of the four guarded routes of [AppRoutes], in order:
    [None] is the [index] route, [Some p] the route [path=p]. *)
Definition nested : list (string * list (option string * Screen)) :=
  [ ("/admin",
     [ (None, Dashboard); (Some "businesses", Businesses);
       (Some "users", UsersPage); (Some "services", Services);
       (Some "staff", Staff); (Some "appointments", Appointments);
       (Some "clients", Clients); (Some "finance", Finance);
       (Some "platform-finance", PlatformFinance);
       (Some "reports", Reports); (Some "settings", Settings) ]);
    ("/business",
     [ (None, Dashboard); (Some "services", Services);
       (Some "staff", Staff); (Some "appointments", Appointments);
       (Some "clients", Clients); (Some "finance", Finance);
       (Some "reports", Reports); (Some "settings", Settings) ]);
    ("/staff",
     [ (None, Dashboard); (Some "calendar", Appointments);
       (Some "settings", Settings) ]);
    ("/client",
     [ (None, Dashboard); (Some "appointments", Appointments);
       (Some "settings", Settings) ]) ].

(** The full path of a child route. *)
Definition child_path (parent : string) (child : option string) : string :=
  match child with
  | None => parent
  | Some p => parent ++ "/" ++ p
  end.

(** The paths that the nested routes declare, with the dashboard they are
    under and the screen they show. *)
Definition declared : list (string * (string * Screen)) :=
  flat_map
    (λ entry : string * list (option string * Screen),
       map (λ child : option string * Screen,
              (child_path (fst entry) (fst child), (fst entry, snd child)))
         (snd entry))
    nested.

Fixpoint find_path (p : string) (l : list (string * (string * Screen)))
  : option (string * Screen) :=
  match l with
  | [] => None
  | (q, target) :: rest => if String.eqb q p then Some target
                           else find_path p rest
  end.

(** The dashboard and the screen declared at exactly the path [p]. *)
Definition screen_at (p : string) : option (string * Screen) :=
  find_path p declared.

End Routes.

(** ** [layouts/DashboardLayout]: the navigation shell *)

Module Shell.
Import Browser Api AuthContext.

(** An entry of the sidebar: the name of its icon, the translation key of
    its label, and its path relative to the dashboard. *)
Record NavItem := mkNavItem {
  icon : string;
  label : string;
  path : string;
}.

Definition baseItems : list NavItem :=
  [ {| icon := "LayoutDashboard"; label := "nav.dashboard";
       path := EmptyString |} ].

(** The [roleItems] table of [getNavItems]. *)
Definition roleItems : gmap string (list NavItem) :=
  <["super_admin" :=
      [ mkNavItem "Building2" "nav.businesses" "businesses";
        mkNavItem "Users" "nav.users" "users";
        mkNavItem "Calendar" "nav.appointments" "appointments";
        mkNavItem "DollarSign" "nav.platform" "platform-finance";
        mkNavItem "BarChart3" "nav.reports" "reports";
        mkNavItem "Settings" "nav.settings" "settings" ]]>
  (<["admin" :=
      [ mkNavItem "Building2" "nav.businesses" "businesses";
        mkNavItem "Users" "nav.users" "users";
        mkNavItem "Scissors" "nav.services" "services";
        mkNavItem "UserCog" "nav.staff" "staff";
        mkNavItem "Calendar" "nav.appointments" "appointments";
        mkNavItem "Briefcase" "nav.clients" "clients";
        mkNavItem "DollarSign" "nav.finance" "finance";
        mkNavItem "BarChart3" "nav.reports" "reports";
        mkNavItem "Settings" "nav.settings" "settings" ]]>
  (<["business" :=
      [ mkNavItem "Scissors" "nav.services" "services";
        mkNavItem "UserCog" "nav.staff" "staff";
        mkNavItem "Calendar" "nav.appointments" "appointments";
        mkNavItem "Briefcase" "nav.clients" "clients";
        mkNavItem "DollarSign" "nav.finance" "finance";
        mkNavItem "BarChart3" "nav.reports" "reports";
        mkNavItem "Settings" "nav.settings" "settings" ]]>
  (<["staff" :=
      [ mkNavItem "Calendar" "nav.calendar" "calendar";
        mkNavItem "Settings" "nav.settings" "settings" ]]>
  (<["client" :=
      [ mkNavItem "Calendar" "nav.appointments" "appointments";
        mkNavItem "Settings" "nav.settings" "settings" ]]> ∅)))).

(** [getNavItems()], for [role] the value of [user?.role]. For a role that
    names a member inherited from [Object.prototype], [roleItems[role]] is
    that member: it is truthy, so [|| []] does not replace it, and it cannot
    be spread into the array, so the call throws. *)
Definition getNavItems (role : option string) : completion (list NavItem) :=
  match Js.index roleItems role with
  | Js.Own items => Normal (app baseItems items)
  | Js.Undefined => Normal (app baseItems [])
  | Js.Inherited _ => Throws "TypeError"
  end.

(** [`/${user?.role === 'super_admin' ? 'admin' : user?.role}`]: an absent
    role is spelled [undefined] by the template. *)
Definition basePath (role : option string) : string :=
  "/" ++ match role with
         | Some r => if String.eqb r "super_admin" then "admin" else r
         | None => "undefined"
         end.

(** [item.path ? `${basePath}/${item.path}` : basePath]. *)
Definition fullPath (base : string) (item : NavItem) : string :=
  if Js.truthy_string (path item) then base ++ "/" ++ path item else base.

(** The [isActive] of the desktop sidebar. *)
Definition isActive (pathname base : string) (item : NavItem) : bool :=
  String.eqb pathname (fullPath base item)
  || (Js.truthy_string (path item)
      && Config.startsWith (base ++ "/" ++ path item) pathname).

(** The [isActive] of the mobile sidebar. *)
Definition isActive_mobile (pathname base : string) (item : NavItem)
  : bool :=
  String.eqb pathname (fullPath base item).

(** The target of the settings entry of the user menu. *)
Definition settings_target (role : option string) : string :=
  basePath role ++ "/settings".

(** [handleLogout]: [logout()], then [navigate('/')]; the session as it is
    once React has committed the update. *)
Definition handleLogout (s : Session) : Session :=
  on_browser (set_pathname "/") (rerender (token s) (logout s)).

End Shell.

(** ** The pages that call the session store *)

Module Pages.
Import Json Browser Api AuthContext.

(** What a toast shows: a translated text, named by its key, or a value
    handed over as it came. *)
Inductive Message :=
  | Translated (key : string)
  | Raw (value : json).

Inductive Toast :=
  | ToastSuccess (m : Message)
  | ToastError (m : Message).

(** [error.response?.data?.detail || t('errors.serverError')]. *)
Definition detail_or_serverError (error : AxiosError) : Message :=
  match detail_of error with
  | Some d => if Json.truthy d then Raw d else Translated "errors.serverError"
  | None => Translated "errors.serverError"
  end.

(** What a submit handler has done when it returns. *)
Record Submitted := mkSubmitted {
  after : Session;
  toast : Toast;
  destination : option Js.value;
}.

(** The [redirectMap] literal of [Login]. *)
Definition Login_redirectMap : gmap string string :=
  <["super_admin" := "/admin"]>
  (<["admin" := "/admin"]>
  (<["business" := "/business"]>
  (<["staff" := "/staff"]>
  (<["client" := "/client"]> ∅)))).

(** [redirectMap[user.role] || '/'] in [Login]. *)
Definition Login_redirect (role : option string) : Js.value :=
  Js.or_default (Js.index Login_redirectMap role) "/".

(** [navigate(to)]: the router shows the path [to]. A target that is not a
    string gives the router no path (it reads the [pathname] field of such
    a target, which an inherited member has not): the model keeps the
    session at the path it is at. *)
Definition navigate (to : Js.value) (s : Session) : Session :=
  match to with
  | Js.Str path => on_browser (set_pathname path) s
  | Js.Member _ => s
  end.

(** [handleSubmit] of [Login], given how [/auth/login] is answered. *)
Definition Login_handleSubmit (email password : string)
    (answer : settled (string * Identity) AxiosError) (s : Session)
  : Submitted :=
  match answer with
  | Resolved (access_token, user) =>
      let s := rerender (token s) (login email password access_token user s) in
      let to := Login_redirect (role user) in
      {| after := navigate to s;
         toast := ToastSuccess (Translated "auth.welcomeBack");
         destination := Some to |}
  | Rejected error =>
      let s := on_browser
                 (api_post "/auth/login"
                    (FormBody [("username", email); ("password", password)])
                    {["Content-Type" := "application/x-www-form-urlencoded"]})
                 s in
      {| after := on_browser (on_rejected error) s;
         toast := ToastError (detail_or_serverError error);
         destination := None |}
  end.

(** The state of the form of [Register]. *)
Record RegisterForm := mkRegisterForm {
  form_email : string;
  form_password : string;
  form_confirmPassword : string;
  form_first_name : string;
  form_last_name : string;
  form_phone : string;
}.

(** The object that [handleSubmit] passes to [register]. *)
Definition Register_payload (f : RegisterForm) : json :=
  JObj [ ("email", JStr (form_email f));
         ("password", JStr (form_password f));
         ("first_name", JStr (form_first_name f));
         ("last_name", JStr (form_last_name f));
         ("phone", JStr (form_phone f)) ].

(** [handleSubmit] of [Register], given how [/auth/register] would be
    answered. *)
Definition Register_handleSubmit (f : RegisterForm)
    (answer : settled (string * Identity) AxiosError) (s : Session)
  : Submitted :=
  if negb (String.eqb (form_password f) (form_confirmPassword f)) then
    {| after := s;
       toast := ToastError (Translated "errors.passwordMismatch");
       destination := None |}
  else
    match answer with
    | Resolved (access_token, newUser) =>
        let s := rerender (token s)
                   (register (Register_payload f) access_token newUser s) in
        {| after := navigate (Js.Str "/client") s;
           toast := ToastSuccess (Translated "auth.createAccount");
           destination := Some (Js.Str "/client") |}
    | Rejected error =>
        let s := on_browser
                   (api_post "/auth/register" (JsonBody (Register_payload f))
                      ∅) s in
        {| after := on_browser (on_rejected error) s;
           toast := ToastError (detail_or_serverError error);
           destination := None |}
    end.

(** The quick link of the [Dashboard] page: absent for a client, else
    [`${basePath}/appointments`]. *)
Definition Dashboard_quick_link (role : option string) : option string :=
  if bool_decide (role = Some "client") then None
  else Some (Shell.basePath role ++ "/appointments").

End Pages.

(** ** Kinds of events *)

Module Traces.
Import Api AuthContext.

(** An event that is not a 401 answer to a call other than [/auth/me]: the
    response interceptor removes the stored token on such an answer and
    leaves the store as it is. *)
Definition quiet (ev : Event) : bool :=
  match ev with
  | ApiRejected e | LoginRejected _ _ e => negb (is_401 e)
  | _ => true
  end.

(** An event other than the reload of the page. *)
Definition stays (ev : Event) : bool :=
  match ev with
  | Navigated => false
  | _ => true
  end.

End Traces.

(** ** More sample data *)

Module Samples.
Import Browser Api AuthContext Pages.

Definition form : RegisterForm :=
  {| form_email := "leo@example.com"; form_password := "hunter22";
     form_confirmPassword := "hunter22"; form_first_name := "Leo";
     form_last_name := "Paz"; form_phone := "555-0101" |}.

(** A signed-in client looking at the client dashboard. *)
Definition on_dashboard : Session :=
  on_browser (set_pathname "/client") (Examples.signed_in "client").

End Samples.

(** * Properties *)

(** ** The access policy *)

Module PolicyFacts.
Import Api AuthContext App.

Lemma roles_not_inherited (r : string) :
  r ∈ Policy.roles → Js.inherits (Some r) = false.
Proof.
  unfold Policy.roles. rewrite !elem_of_cons, elem_of_nil.
  intros [->|[->|[->|[->|[->|[]]]]]]; vm_compute; reflexivity.
Qed.

Lemma lookup_redirectMap (r : string) :
  Js.or_default (Js.index ProtectedRoute_redirectMap (Some r)) "/"
  = if Js.inherits (Some r) then Js.Member r
    else Js.Str (Policy.homeRouteFor (Some r)).
Proof.
  destruct (decide (r ∈ Policy.roles)) as [Hin|Hout].
  - rewrite (roles_not_inherited r Hin). revert Hin.
    unfold Policy.roles. rewrite !elem_of_cons, elem_of_nil.
    intros [->|[->|[->|[->|[->|[]]]]]]; vm_compute; reflexivity.
  - revert Hout. unfold Policy.roles.
    rewrite !not_elem_of_cons. intros (?&?&?&?&?&_).
    unfold Js.index, ProtectedRoute_redirectMap, Policy.homeRouteFor.
    repeat case_decide; try congruence. simplify_map_eq.
    by destruct (bool_decide (r ∈ Js.Object_prototype)).
Qed.

Lemma redirectMaps_agree :
  PublicRoute_redirectMap = ProtectedRoute_redirectMap.
Proof. reflexivity. Qed.

Lemma ProtectedRoute_redirect_cases (role : option string) :
  ProtectedRoute_redirect role
  = match role with
    | Some r => if Js.inherits role then Js.Member r
                else Js.Str (Policy.homeRouteFor role)
    | None => Js.Str "/"
    end.
Proof.
  unfold ProtectedRoute_redirect.
  destruct role as [r|]; [apply lookup_redirectMap | done].
Qed.

Lemma ProtectedRoute_redirect_homeRouteFor (role : option string) :
  Js.inherits role = false →
  ProtectedRoute_redirect role = Js.Str (Policy.homeRouteFor role).
Proof.
  intros Hrole. rewrite ProtectedRoute_redirect_cases.
  destruct role as [r|]; [by rewrite Hrole | done].
Qed.

Lemma PublicRoute_redirect_homeRouteFor (role : option string) :
  Js.inherits role = false →
  PublicRoute_redirect role = Js.Str (Policy.homeRouteFor role).
Proof.
  unfold PublicRoute_redirect. rewrite redirectMaps_agree.
  apply ProtectedRoute_redirect_homeRouteFor.
Qed.

Lemma homeRouteFor_of_role (r : string) :
  r ∈ Policy.roles → Policy.homeRouteFor (Some r) ≠ "/".
Proof.
  unfold Policy.roles. rewrite !elem_of_cons, elem_of_nil.
  intros [->|[->|[->|[->|[->|[]]]]]]; vm_compute; discriminate.
Qed.

Lemma homeRouteFor_other (role : option string) :
  role ∉ (Some <$> Policy.roles) → Policy.homeRouteFor role = "/".
Proof.
  destruct role as [r|]; [|done].
  unfold Policy.roles, Policy.homeRouteFor. cbn [fmap list_fmap].
  rewrite !not_elem_of_cons. intros (?&?&?&?&?&_).
  repeat case_decide; congruence.
Qed.




Lemma includes_true_iff (xs : list string) (x : string) :
  Js.includes xs (Some x) = true ↔ x ∈ xs.
Proof. unfold Js.includes. apply bool_decide_eq_true. Qed.

Lemma includes_false_iff (xs : list string) (x : string) :
  Js.includes xs (Some x) = false ↔ x ∉ xs.
Proof. unfold Js.includes. apply bool_decide_eq_false. Qed.

Lemma permissions_index (r : string) :
  Js.index permissions (Some r)
  = if decide (r ∈ Policy.roles)
    then Js.Own (if decide (r = "super_admin") then ["all"]
                 else Policy.permittedResources (Some r))
    else if Js.inherits (Some r) then Js.Inherited r else Js.Undefined.
Proof.
  case_decide as Hr.
  - revert Hr. unfold Policy.roles. rewrite !elem_of_cons, elem_of_nil.
    intros [->|[->|[->|[->|[->|[]]]]]]; vm_compute; reflexivity.
  - revert Hr. unfold Policy.roles.
    rewrite !not_elem_of_cons. intros (?&?&?&?&?&_).
    unfold Js.index, permissions. by simplify_map_eq.
Qed.

Lemma permittedResources_other (r : string) :
  r ∉ Policy.roles → Policy.permittedResources (Some r) = [].
Proof.
  unfold Policy.roles, Policy.permittedResources.
  rewrite !not_elem_of_cons. intros (?&?&?&?&?&_).
  repeat case_decide; congruence.
Qed.

Lemma all_not_permitted (role : option string) :
  "all" ∉ Policy.permittedResources role.
Proof.
  destruct role as [r|]; [|apply not_elem_of_nil].
  unfold Policy.permittedResources.
  repeat case_decide; rewrite ?not_elem_of_cons;
    repeat split; try discriminate; apply not_elem_of_nil.
Qed.

(** What [canAccess] does for an Identity, by the kind of its role. *)
Lemma canAccess_cases (s : Session) (u : Identity) (resource : string) :
  user s = Some u →
  canAccess resource s
  = if Js.inherits (role u) then Throws "TypeError"
    else Normal (bool_decide (role u = Some "super_admin")
                 || Js.includes (Policy.permittedResources (role u))
                      (Some resource)).
Proof.
  intros Hu. unfold canAccess. rewrite Hu.
  destruct (role u) as [r|] eqn:Hrole; [|reflexivity].
  rewrite permissions_index. case_decide as Hr.
  - rewrite (roles_not_inherited r Hr). case_decide as Hsuper.
    + subst r. reflexivity.
    + rewrite (bool_decide_eq_false_2 (Some r = Some "super_admin"))
        by congruence.
      cbn [orb]. f_equal.
      replace (Js.includes (Policy.permittedResources (Some r)) (Some "all"))
        with false; [reflexivity|].
      symmetry. apply includes_false_iff, all_not_permitted.
  - destruct (Js.inherits (Some r)); [reflexivity|].
    rewrite (permittedResources_other r Hr).
    rewrite (bool_decide_eq_false_2 (Some r = Some "super_admin")).
    + reflexivity.
    + intros [= ->]. apply Hr. apply (bool_decide_unpack _).
      vm_compute. exact I.
Qed.

Lemma permits_not_inherited (role : option string) (resource : string) :
  Policy.permits role resource → Js.inherits role = false.
Proof.
  destruct role as [r|]; [|done].
  destruct (decide (r ∈ Policy.roles)) as [Hr|Hr];
    [intros _; by apply roles_not_inherited|].
  intros [[= ->]|Hin].
  - exfalso. apply Hr. apply (bool_decide_unpack _). vm_compute. exact I.
  - rewrite (permittedResources_other r Hr) in Hin.
    by apply elem_of_nil in Hin.
Qed.

(** A role named as an inherited member: [canAccess] throws. *)
Lemma canAccess_odd_role (resource : string) :
  canAccess resource Examples.odd_role = Throws "TypeError".
Proof.
  by rewrite (canAccess_cases Examples.odd_role
                (Examples.member "constructor") resource eq_refl).
Qed.

(** C4. For an authenticated Identity and any resource name, [canAccess]
    returns [true] exactly when the Identity's role is [super_admin] (whose
    ['all'] entry decides before the resource is looked at) or the resource
    is in the fixed set of that role: the eight resources of [admin], the
    six of [business], the two of [staff], the one of [client]. So no role
    other than [super_admin] is answered [true] for a resource outside its
    set: the call returns [false] then, unless the role names a member
    inherited from [Object.prototype], for which the call throws. *)
Theorem canAccess_iff_permits (s : Session) (u : Identity)
    (resource : string) :
  user s = Some u →
  (canAccess resource s = Normal true ↔ Policy.permits (role u) resource)
  ∧ (role u = Some "super_admin" → canAccess resource s = Normal true)
  ∧ (role u ≠ Some "super_admin" →
       resource ∉ Policy.permittedResources (role u) →
       canAccess resource s ≠ Normal true
       ∧ (Js.inherits (role u) = false →
            canAccess resource s = Normal false)
       ∧ (Js.inherits (role u) = true →
            canAccess resource s = Throws "TypeError")).
Proof.
  intros Hu. rewrite (canAccess_cases s u resource Hu).
  assert (Hiff :
    (if Js.inherits (role u) then Throws "TypeError"
     else Normal (bool_decide (role u = Some "super_admin")
                  || Js.includes (Policy.permittedResources (role u))
                       (Some resource))) = Normal true
    ↔ Policy.permits (role u) resource).
  { split.
    - destruct (Js.inherits (role u)); [discriminate|].
      intros [= Hor]. apply orb_true_iff in Hor as [Hsuper|Hin].
      + left. by apply bool_decide_eq_true in Hsuper.
      + right. unfold Js.includes in Hin.
        by apply bool_decide_eq_true in Hin.
    - intros Hp. rewrite (permits_not_inherited _ _ Hp). f_equal.
      apply orb_true_iff. destruct Hp as [Hsuper|Hin].
      + left. by apply bool_decide_eq_true.
      + right. by apply includes_true_iff. }
  split; [exact Hiff|]. split.
  - intros Hr. apply Hiff. by left.
  - intros Hr Hout. split; [|split].
    + rewrite Hiff. intros [?|?]; contradiction.
    + intros ->. f_equal. apply orb_false_iff. split.
      * by apply bool_decide_eq_false.
      * by apply includes_false_iff.
    + by intros ->.
Qed.

(** A staff member may open the calendar but not the list of users. *)
Lemma canAccess_iff_permits_witness :
  user (Examples.signed_in "staff") = Some (Examples.member "staff")
  ∧ canAccess "calendar" (Examples.signed_in "staff") = Normal true
  ∧ canAccess "users" (Examples.signed_in "staff") = Normal false.
Proof.
  split; [reflexivity|]. split.
  - apply (proj1 (canAccess_iff_permits (Examples.signed_in "staff")
                    (Examples.member "staff") "calendar" eq_refl)).
    right. apply (bool_decide_unpack _). vm_compute. exact I.
  - apply (proj2 (proj2 (canAccess_iff_permits (Examples.signed_in "staff")
                           (Examples.member "staff") "users" eq_refl))).
    + discriminate.
    + apply (bool_decide_unpack _). vm_compute. exact I.
    + reflexivity.
Defined.

(** C10. With no Identity in the session ([user] is [null]), [hasRole]
    answers [false] for every argument, a role name or a list of names, and
    [canAccess] answers [false] for every resource name, also for those that
    some role is permitted. *)
Theorem no_identity_no_access (s : Session) :
  user s = None →
  (∀ roles : Roles, hasRole roles s = false)
  ∧ (∀ resource : string, canAccess resource s = Normal false).
Proof.
  intros Hu. split.
  - intros roles. unfold hasRole. by rewrite Hu.
  - intros resource. unfold canAccess. by rewrite Hu.
Qed.

Lemma no_identity_no_access_witness :
  user Examples.visitor = None
  ∧ hasRole (OneRole "admin") Examples.visitor = false
  ∧ hasRole (RoleList Policy.roles) Examples.visitor = false
  ∧ canAccess "appointments" Examples.visitor = Normal false.
Proof.
  pose proof (no_identity_no_access Examples.visitor eq_refl) as [Hr Ha].
  split; [reflexivity|]. split; [apply Hr|]. split; [apply Hr | apply Ha].
Defined.

End PolicyFacts.

(** ** The route guards *)

Module GuardFacts.
Import Browser Api AuthContext App.

Lemma isAuthenticated_Some (s : Session) (u : Identity) :
  user s = Some u → isAuthenticated s = true.
Proof. unfold isAuthenticated. by intros ->. Qed.

Lemma isAuthenticated_None (s : Session) :
  user s = None → isAuthenticated s = false.
Proof. unfold isAuthenticated. by intros ->. Qed.

(** What [ProtectedRoute] does for an Identity whose role is not allowed. *)
Lemma ProtectedRoute_excluded {C} (s : Session) (u : Identity)
    (allowed : list string) (children : C) :
  user s = Some u →
  Js.includes allowed (role u) = false →
  ProtectedRoute s (Some allowed) children
  = if loading s then Spinner
    else Navigate (ProtectedRoute_redirect (role u)) true.
Proof.
  intros Hu Hex. unfold ProtectedRoute.
  rewrite (isAuthenticated_Some s u Hu), Hu.
  cbn [negb role_of mbind option_bind].
  by rewrite Hex.
Qed.

(** *** A session in use has finished loading once it holds an Identity *)

Lemma token_effect_settled (s : Session) :
  user (token_effect s) = user s
  ∧ token (token_effect s) = token s
  ∧ (loading s = false ∨ token s = None → loading (token_effect s) = false).
Proof.
  unfold token_effect. destruct (token s) as [t|] eqn:Ht; cbn.
  - destruct (Js.truthy_string t); cbn; rewrite ?Ht; repeat split; try done.
    all: by intros [?|?].
  - rewrite Ht. repeat split; done.
Qed.

Lemma rerender_settled (previous : option string) (s : Session) :
  user (rerender previous s) = user s
  ∧ token (rerender previous s) = token s
  ∧ (loading s = false → loading (rerender previous s) = false)
  ∧ (token s = None → previous ≠ None →
       loading (rerender previous s) = false).
Proof.
  unfold rerender.
  destruct (token_effect_settled s) as (Hu & Ht & Hl).
  case_decide as Hsame.
  - repeat split; try done. intros Hnone Hprev. congruence.
  - repeat split; try done.
    + intros Hloaded. apply Hl. by left.
    + intros Hnone _. apply Hl. by right.
Qed.

Lemma mount_settled (b : Browser.t) : settled_session (mount b).
Proof.
  unfold mount. destruct (token_effect_settled (init b)) as (Hu & Ht & Hl).
  split.
  - rewrite Hu. by intros [].
  - rewrite Ht. intros Hnone. apply Hl. by right.
Qed.

Lemma step_settled (ev : Event) (s s' : Session) :
  offered ev s = true → step ev s = Some s' →
  settled_session s → settled_session s'.
Proof.
  intros Hoff Hstep [Huser Htoken].
  destruct ev as [u|e|email password access_token u|email password e
                 |profile access_token u| |u|e|path| ];
    cbn [step offered] in Hstep, Hoff.
  - case_bool_decide; [|done]. injection Hstep as <-. by split.
  - case_bool_decide; [|done]. injection Hstep as <-.
    destruct (rerender_settled (token s) (fetchUser_rejected e s))
      as (Hu & Ht & Hl & _).
    split; intros _; by apply Hl.
  - injection Hstep as <-. apply negb_true_iff in Hoff.
    destruct (rerender_settled (token s) (login email password access_token u s))
      as (Hu & Ht & Hl & _).
    split; intros _; by apply Hl.
  - injection Hstep as <-. by split.
  - injection Hstep as <-. apply negb_true_iff in Hoff.
    destruct (rerender_settled (token s) (register profile access_token u s))
      as (Hu & Ht & Hl & _).
    split; intros _; by apply Hl.
  - injection Hstep as <-.
    destruct (rerender_settled (token s) (logout s)) as (Hu & Ht & Hl & Hn).
    split.
    + rewrite Hu. by intros [].
    + intros _. destruct (token s) as [t|] eqn:Hts.
      * by apply Hn.
      * apply Hl. by apply Htoken.
  - injection Hstep as <-. apply negb_true_iff in Hoff. by split.
  - injection Hstep as <-. by split.
  - injection Hstep as <-. by split.
  - destruct (href (browser s)); [|done]. injection Hstep as <-.
    apply mount_settled.
Qed.

Lemma run_offered_settled (evs : list Event) (s s' : Session) :
  run_offered evs s = Some s' → settled_session s → settled_session s'.
Proof.
  revert s. induction evs as [|ev evs IH]; intros s Hrun Hs.
  - by injection Hrun as <-.
  - cbn [run_offered] in Hrun.
    destruct (offered ev s) eqn:Hoff; [|done].
    destruct (step ev s) as [s1|] eqn:Hstep; [|done].
    cbn in Hrun. apply (IH s1 Hrun). by apply (step_settled ev s).
Qed.

Lemma in_use_settled (s : Session) : in_use s → settled_session s.
Proof.
  intros (ls & path & evs & Hrun).
  apply (run_offered_settled evs _ s Hrun), mount_settled.
Qed.

Lemma in_use_identity_loaded (s : Session) (u : Identity) :
  in_use s → user s = Some u → loading s = false.
Proof.
  intros Hs Hu. apply (proj1 (in_use_settled s Hs)). by rewrite Hu.
Qed.

Lemma visitor_in_use : in_use Examples.visitor.
Proof. by exists ∅, "/login", []. Qed.

Lemma signed_in_in_use (role : string) : in_use (Examples.signed_in role).
Proof.
  exists ∅, "/login",
    [AuthContext.Login "ana@example.com" "secret" "jwt-1"
       (Examples.member role)].
  reflexivity.
Qed.

(** C1. For a role [R] among the five and a guarded screen whose
    allowed-role set excludes [R], rendering [ProtectedRoute] in a session
    of the application that holds an Identity of role [R] gives a
    history-replacing redirect to [homeRouteFor(R)], and never the guarded
    content. The session is any one that the pages can bring about from a
    loaded document: such a session has finished loading once it holds an
    Identity. *)
Theorem ProtectedRoute_wrong_role {C} (s : Session) (u : Identity)
    (R : string) (allowed : list string) (children : C) :
  in_use s →
  R ∈ Policy.roles →
  user s = Some u →
  role u = Some R →
  R ∉ allowed →
  ProtectedRoute s (Some allowed) children
  = Navigate (Js.Str (Policy.homeRouteFor (Some R))) true
  ∧ (∀ c : C, ProtectedRoute s (Some allowed) children ≠ Children c).
Proof.
  intros Hs HR Hu Hrole Hex.
  assert (Heq : ProtectedRoute s (Some allowed) children
                = Navigate (Js.Str (Policy.homeRouteFor (Some R))) true).
  { rewrite (ProtectedRoute_excluded s u allowed children Hu).
    - rewrite (in_use_identity_loaded s u Hs Hu), Hrole.
      rewrite PolicyFacts.ProtectedRoute_redirect_homeRouteFor; [done|].
      by apply PolicyFacts.roles_not_inherited.
    - rewrite Hrole. by apply PolicyFacts.includes_false_iff. }
  split; [exact Heq|]. intros c. by rewrite Heq.
Qed.

(** A signed-in client asking for the admin dashboard is sent to
    [/client]. *)
Lemma ProtectedRoute_wrong_role_witness :
  in_use (Examples.signed_in "client")
  ∧ "client" ∈ Policy.roles
  ∧ user (Examples.signed_in "client") = Some (Examples.member "client")
  ∧ role (Examples.member "client") = Some "client"
  ∧ ("client" ∉ ["super_admin"; "admin"])
  ∧ ProtectedRoute (Examples.signed_in "client")
      (Some ["super_admin"; "admin"]) DashboardLayout
    = Navigate (Js.Str "/client") true.
Proof.
  assert (Hex : "client" ∉ ["super_admin"; "admin"])
    by (apply (bool_decide_unpack _); vm_compute; exact I).
  assert (HR : "client" ∈ Policy.roles)
    by (apply (bool_decide_unpack _); vm_compute; exact I).
  split; [apply signed_in_in_use|]. split; [exact HR|].
  split; [reflexivity|]. split; [reflexivity|]. split; [exact Hex|].
  exact (proj1 (ProtectedRoute_wrong_role
                  (Examples.signed_in "client")
                  (Examples.member "client") "client"
                  ["super_admin"; "admin"] DashboardLayout
                  (signed_in_in_use "client") HR eq_refl eq_refl Hex)).
Defined.

(** Which routes of [AppRoutes] are wrapped in [PublicRoute]. *)
Lemma AppRoutes_public (path : string) (page : Page) :
  (path, Public page) ∈ AppRoutes
  ↔ (path = "/login" ∧ page = Login) ∨ (path = "/register" ∧ page = Register).
Proof.
  unfold AppRoutes. rewrite !elem_of_cons, elem_of_nil. split.
  - intros [H|[H|[H|[H|[H|[H|[H|[H|[]]]]]]]]]; inversion H; auto.
  - intros [[-> ->]|[-> ->]]; auto.
Qed.

(** Which routes of [AppRoutes] are wrapped in [ProtectedRoute]. *)
Lemma AppRoutes_protected (path : string) (allowed : list string)
    (page : Page) :
  (path, Protected allowed page) ∈ AppRoutes
  ↔ page = DashboardLayout
    ∧ ((path = "/admin" ∧ allowed = ["super_admin"; "admin"])
       ∨ (path = "/business" ∧ allowed = ["business"])
       ∨ (path = "/staff" ∧ allowed = ["staff"])
       ∨ (path = "/client" ∧ allowed = ["client"])).
Proof.
  unfold AppRoutes. rewrite !elem_of_cons, elem_of_nil. split.
  - intros [H|[H|[H|[H|[H|[H|[H|[H|[]]]]]]]]]; inversion H; auto 10.
  - intros [-> [[-> ->]|[[-> ->]|[[-> ->]|[-> ->]]]]]; auto 10.
Qed.

(** In [AppRoutes] the home route of each of the five roles is a dashboard
    that admits the role, so the redirect of a guard is not sent back. *)
Lemma home_route_admits_role (R : string) :
  R ∈ Policy.roles →
  ∃ allowed : list string,
    (Policy.homeRouteFor (Some R), Protected allowed DashboardLayout)
    ∈ AppRoutes
    ∧ R ∈ allowed.
Proof.
  unfold Policy.roles. rewrite !elem_of_cons, elem_of_nil.
  intros [->|[->|[->|[->|[->|[]]]]]].
  - exists ["super_admin"; "admin"]. split.
    + apply AppRoutes_protected. split; [reflexivity|].
      left. split; reflexivity.
    + apply (bool_decide_unpack _). vm_compute. exact I.
  - exists ["super_admin"; "admin"]. split.
    + apply AppRoutes_protected. split; [reflexivity|].
      left. split; reflexivity.
    + apply (bool_decide_unpack _). vm_compute. exact I.
  - exists ["business"]. split.
    + apply AppRoutes_protected. split; [reflexivity|].
      right. left. split; reflexivity.
    + apply (bool_decide_unpack _). vm_compute. exact I.
  - exists ["staff"]. split.
    + apply AppRoutes_protected. split; [reflexivity|].
      right. right. left. split; reflexivity.
    + apply (bool_decide_unpack _). vm_compute. exact I.
  - exists ["client"]. split.
    + apply AppRoutes_protected. split; [reflexivity|].
      right. right. right. split; reflexivity.
    + apply (bool_decide_unpack _). vm_compute. exact I.
Qed.

(** Every guarded route of [AppRoutes], rendered for one of the five roles
    that it excludes, in a session that has loaded. *)
Lemma AppRoutes_wrong_role (s : Session) (u : Identity) (R path : string)
    (allowed : list string) (page : Page) :
  (path, Protected allowed page) ∈ AppRoutes →
  R ∈ Policy.roles →
  user s = Some u → role u = Some R → R ∉ allowed →
  loading s = false →
  render s (Protected allowed page)
  = Navigate (Js.Str (Policy.homeRouteFor (Some R))) true.
Proof.
  intros _ HR Hu Hrole Hex Hl. cbn [render].
  rewrite (ProtectedRoute_excluded s u allowed page Hu), Hl, Hrole.
  - rewrite PolicyFacts.ProtectedRoute_redirect_homeRouteFor; [done|].
    by apply PolicyFacts.roles_not_inherited.
  - rewrite Hrole. by apply PolicyFacts.includes_false_iff.
Qed.

(** What [PublicRoute] does with an Identity held. *)
Lemma PublicRoute_authenticated {C} (s : Session) (u : Identity)
    (children : C) :
  user s = Some u →
  PublicRoute s children
  = if loading s then Spinner
    else Navigate (PublicRoute_redirect (role u)) true.
Proof.
  intros Hu. unfold PublicRoute.
  by rewrite (isAuthenticated_Some s u Hu), Hu.
Qed.

(** C2. A session that holds no Identity and has finished loading, as every
    session of the application that holds neither a token nor an Identity
    has, gets from [ProtectedRoute] on any protected path a
    history-replacing redirect to [/login]. A session of the application
    that holds an Identity gets from [PublicRoute] (which wraps [/login]
    and [/register], and nothing else) a redirect to
    [homeRouteFor(identity.role)] and never the auth form; the role is any
    of the five, or any other value that names no member inherited from
    [Object.prototype]. *)
Theorem guards_redirect :
  (∀ (C : Type) (s : Session) (allowedRoles : option (list string))
     (children : C),
     user s = None → loading s = false →
     ProtectedRoute s allowedRoles children
     = Navigate (Js.Str "/login") true)
  ∧ (∀ (C : Type) (s : Session) (allowedRoles : option (list string))
       (children : C),
       in_use s → user s = None → token s = None →
       ProtectedRoute s allowedRoles children
       = Navigate (Js.Str "/login") true)
  ∧ (∀ (C : Type) (s : Session) (u : Identity) (children : C),
       in_use s →
       user s = Some u →
       Js.inherits (role u) = false →
       PublicRoute s children
       = Navigate (Js.Str (Policy.homeRouteFor (role u))) true
       ∧ (∀ c : C, PublicRoute s children ≠ Children c))
  ∧ (∀ R : string, R ∈ Policy.roles → Js.inherits (Some R) = false)
  ∧ (∀ (path : string) (page : Page),
       (path, Public page) ∈ AppRoutes
       ↔ (path = "/login" ∧ page = Login)
         ∨ (path = "/register" ∧ page = Register)).
Proof.
  assert (Hloaded : ∀ (C : Type) (s : Session)
                      (allowedRoles : option (list string)) (children : C),
            user s = None → loading s = false →
            ProtectedRoute s allowedRoles children
            = Navigate (Js.Str "/login") true).
  { intros C s allowedRoles children Hu Hl. unfold ProtectedRoute.
    by rewrite Hl, (isAuthenticated_None s Hu). }
  split; [exact Hloaded|]. split; [|split; [|split]].
  - intros C s allowedRoles children Hs Hu Ht.
    apply Hloaded; [exact Hu|]. by apply (proj2 (in_use_settled s Hs)).
  - intros C s u children Hs Hu Hrole.
    assert (Heq : PublicRoute s children
                  = Navigate (Js.Str (Policy.homeRouteFor (role u))) true).
    { rewrite (PublicRoute_authenticated s u children Hu).
      rewrite (in_use_identity_loaded s u Hs Hu).
      by rewrite PolicyFacts.PublicRoute_redirect_homeRouteFor. }
    split; [exact Heq|]. intros c. by rewrite Heq.
  - apply PolicyFacts.roles_not_inherited.
  - apply AppRoutes_public.
Qed.

(** A visitor asking for a dashboard is sent to [/login]; a signed-in
    business owner opening [/login] is sent to [/business]. *)
Lemma guards_redirect_witness :
  (user Examples.visitor = None
   ∧ loading Examples.visitor = false
   ∧ ProtectedRoute Examples.visitor (Some ["staff"]) DashboardLayout
     = Navigate (Js.Str "/login") true)
  ∧ (in_use Examples.visitor
     ∧ token Examples.visitor = None
     ∧ ProtectedRoute Examples.visitor (Some ["client"]) DashboardLayout
       = Navigate (Js.Str "/login") true)
  ∧ (in_use (Examples.signed_in "business")
     ∧ user (Examples.signed_in "business")
       = Some (Examples.member "business")
     ∧ Js.inherits (role (Examples.member "business")) = false
     ∧ PublicRoute (Examples.signed_in "business") Login
       = Navigate (Js.Str "/business") true).
Proof.
  destruct guards_redirect as (Hloaded & Hprotected & Hpublic & _).
  split; [|split].
  - split; [reflexivity|]. split; [reflexivity|].
    exact (Hloaded Page Examples.visitor (Some ["staff"]) DashboardLayout
             eq_refl eq_refl).
  - split; [apply visitor_in_use|]. split; [reflexivity|].
    exact (Hprotected Page Examples.visitor (Some ["client"])
             DashboardLayout visitor_in_use eq_refl eq_refl).
  - split; [apply signed_in_in_use|]. split; [reflexivity|].
    split; [reflexivity|].
    exact (proj1 (Hpublic Page (Examples.signed_in "business")
                    (Examples.member "business") Login
                    (signed_in_in_use "business") eq_refl eq_refl)).
Defined.

End GuardFacts.

(** ** The API gateway client *)

Module ApiFacts.
Import Json Browser Api.

Lemma append_cons (a : ascii) (s t : string) :
  String a s ++ t = String a (s ++ t).
Proof. reflexivity. Qed.

Lemma append_nil (t : string) : EmptyString ++ t = t.
Proof. reflexivity. Qed.

Lemma split_without (c : ascii) (s : string) :
  Js.contains c s = false → Js.split c s = [s].
Proof.
  induction s as [|a s IH]; [reflexivity|].
  cbn [Js.contains Js.split]. destruct (Ascii.eqb a c); [discriminate|].
  intros Hs. by rewrite (IH Hs).
Qed.

Lemma split_at_first (c : ascii) (p q : string) :
  Js.contains c p = false →
  Js.split c (p ++ String c q) = p :: Js.split c q.
Proof.
  induction p as [|a p IH].
  - intros _. rewrite append_nil. cbn [Js.split].
    by rewrite Ascii.eqb_refl.
  - cbn [Js.contains]. rewrite append_cons. cbn [Js.split].
    destruct (Ascii.eqb a c); [discriminate|].
    intros Hp. by rewrite (IH Hp).
Qed.

Lemma contains_append (c : ascii) (p q : string) :
  Js.contains c (p ++ q) = Js.contains c p || Js.contains c q.
Proof.
  induction p as [|a p IH]; [reflexivity|].
  rewrite append_cons. cbn [Js.contains].
  destruct (Ascii.eqb a c); [reflexivity | exact IH].
Qed.

Lemma truthy_append (p q : string) :
  Js.truthy_string (p ++ q) = Js.truthy_string p || Js.truthy_string q.
Proof. destruct p; reflexivity. Qed.

(** The URL of a request without a query string. *)
Lemma with_trailing_slash_plain (u : string) :
  Js.contains "?" u = false →
  with_trailing_slash (Some u)
  = Some (if Js.truthy_string u && negb (Js.endsWith "/" u) then u ++ "/"
          else u).
Proof.
  intros Hq. unfold with_trailing_slash. rewrite Hq.
  rewrite andb_true_r, andb_false_r. cbn [andb].
  by destruct (Js.truthy_string u && negb (Js.endsWith "/" u)).
Qed.

(** The URL of a request with one query string. *)
Lemma with_trailing_slash_query (p q : string) :
  Js.contains "?" p = false →
  Js.contains "?" q = false →
  with_trailing_slash (Some (p ++ "?" ++ q))
  = Some (if Js.endsWith "/" p then p ++ "?" ++ q else p ++ "/?" ++ q).
Proof.
  intros Hp Hq. unfold with_trailing_slash.
  assert (Hc : Js.contains "?" (p ++ "?" ++ q) = true).
  { rewrite contains_append. cbn. by rewrite orb_true_r. }
  assert (Ht : Js.truthy_string (p ++ "?" ++ q) = true).
  { rewrite truthy_append. cbn. by rewrite orb_true_r. }
  assert (Hs : Js.split "?" (p ++ "?" ++ q) = [p; q]).
  { change ("?" ++ q) with (String "?" q).
    by rewrite (split_at_first _ p q Hp), (split_without _ q Hq). }
  rewrite Hc, Ht, Hs. cbn [negb andb lookup list_lookup default from_option id].
  rewrite andb_false_r. cbn.
  by destruct (Js.endsWith "/" p).
Qed.

Lemma with_token_other (token : option string) (h : gmap string string)
    (k : string) :
  k ≠ "Authorization" → with_token token h !! k = h !! k.
Proof.
  intros Hk. unfold with_token. destruct token as [t|]; [|done].
  destruct (Js.truthy_string t); [|done]. by rewrite lookup_insert_ne.
Qed.

Lemma with_token_truthy (t : string) (h : gmap string string) :
  Js.truthy_string t = true →
  with_token (Some t) h !! "Authorization" = Some ("Bearer " ++ t).
Proof. intros Ht. unfold with_token. rewrite Ht. apply lookup_insert_eq. Qed.

Lemma with_token_falsy (token : option string) (h : gmap string string) :
  Js.truthy token = false → with_token token h = h.
Proof.
  unfold with_token, Js.truthy. destruct token as [t|]; [|done].
  by intros ->.
Qed.

(** The claim C5 as it is worded fails on the URL: the request that
    [fetchUser] makes leaves with a slash added to its path. *)
Lemma request_url_counterexample :
  url (request_fulfilled (Browser.load ∅ "/")
         {| url := Some "/auth/me"; method := "get"; data := NoBody;
            headers := ∅ |})
  = Some "/auth/me/"
  ∧ url (request_fulfilled (Browser.load ∅ "/")
           {| url := Some "/auth/me"; method := "get"; data := NoBody;
              headers := ∅ |})
    ≠ url {| url := Some "/auth/me"; method := "get"; data := NoBody;
             headers := ∅ |}.
Proof. split; [reflexivity | discriminate]. Qed.

(** C5, amended. The request interceptor adds the header
    [Authorization: Bearer <token>] exactly when a non-empty token is
    stored, and leaves the method, the body and every other header of the
    request as they are. Of the URL it changes the path only: a URL with at
    most one [?] whose path does not end in a slash gets one, before the
    query string if there is one; an absent or empty URL, and one whose path
    ends in a slash, are left as they are. *)
Theorem request_interceptor_frame (b : Browser.t) (config : RequestConfig) :
  method (request_fulfilled b config) = method config
  ∧ data (request_fulfilled b config) = data config
  ∧ (∀ k : string, k ≠ "Authorization" →
       headers (request_fulfilled b config) !! k = headers config !! k)
  ∧ (∀ t : string, getItem "token" b = Some t → t ≠ EmptyString →
       headers (request_fulfilled b config) !! "Authorization"
       = Some ("Bearer " ++ t))
  ∧ (getItem "token" b = None ∨ getItem "token" b = Some EmptyString →
       headers (request_fulfilled b config) = headers config)
  ∧ (url config = None → url (request_fulfilled b config) = None)
  ∧ (∀ u : string, url config = Some u → Js.contains "?" u = false →
       url (request_fulfilled b config)
       = Some (if Js.truthy_string u && negb (Js.endsWith "/" u)
               then u ++ "/" else u))
  ∧ (∀ p q : string, url config = Some (p ++ "?" ++ q) →
       Js.contains "?" p = false → Js.contains "?" q = false →
       url (request_fulfilled b config)
       = Some (if Js.endsWith "/" p then p ++ "?" ++ q
               else p ++ "/?" ++ q)).
Proof.
  unfold request_fulfilled. cbn [method data headers url].
  split; [reflexivity|]. split; [reflexivity|]. split.
  { intros k Hk. by apply with_token_other. }
  split.
  { intros t Ht Hne. rewrite Ht. apply with_token_truthy.
    by destruct t. }
  split.
  { intros Hfalsy. apply with_token_falsy.
    by destruct Hfalsy as [-> | ->]. }
  split.
  { by intros ->. }
  split.
  { intros u -> Hq. by apply with_trailing_slash_plain. }
  intros p q -> Hp Hq. by apply with_trailing_slash_query.
Qed.

(** A filtered list request of a signed-in user: the token is added, the
    slash goes before the query, the [Accept] header stays. *)
Lemma request_interceptor_frame_witness :
  getItem "token" (Browser.load {["token" := "jwt-1"]} "/admin")
  = Some "jwt-1"
  ∧ headers (request_fulfilled
               (Browser.load {["token" := "jwt-1"]} "/admin")
               {| url := Some ("/users" ++ "?" ++ "role=staff");
                  method := "get"; data := NoBody;
                  headers := {["Accept" := "application/json"]} |})
    !! "Authorization" = Some "Bearer jwt-1"
  ∧ headers (request_fulfilled
               (Browser.load {["token" := "jwt-1"]} "/admin")
               {| url := Some ("/users" ++ "?" ++ "role=staff");
                  method := "get"; data := NoBody;
                  headers := {["Accept" := "application/json"]} |})
    !! "Accept" = Some "application/json"
  ∧ url (request_fulfilled
           (Browser.load {["token" := "jwt-1"]} "/admin")
           {| url := Some ("/users" ++ "?" ++ "role=staff");
              method := "get"; data := NoBody;
              headers := {["Accept" := "application/json"]} |})
    = Some "/users/?role=staff".
Proof.
  pose proof (request_interceptor_frame
                (Browser.load {["token" := "jwt-1"]} "/admin")
                {| url := Some ("/users" ++ "?" ++ "role=staff");
                   method := "get"; data := NoBody;
                   headers := {["Accept" := "application/json"]} |})
    as (_ & _ & Hother & Hauth & _ & _ & _ & Hquery).
  split; [reflexivity|]. split.
  { apply (Hauth "jwt-1"); [reflexivity | discriminate]. }
  split.
  { rewrite (Hother "Accept"); [reflexivity | discriminate]. }
  exact (Hquery "/users" "role=staff" eq_refl eq_refl eq_refl).
Defined.

(** The other copy of the interceptor in the repository only adds the
    token: there the URL is left as it is too. *)
Lemma request_fulfilled_token_only_frame (b : Browser.t)
    (config : RequestConfig) :
  url (request_fulfilled_token_only b config) = url config
  ∧ method (request_fulfilled_token_only b config) = method config
  ∧ data (request_fulfilled_token_only b config) = data config
  ∧ (∀ k : string, k ≠ "Authorization" →
       headers (request_fulfilled_token_only b config) !! k
       = headers config !! k).
Proof.
  repeat split. intros k Hk. by apply with_token_other.
Qed.

(** *** The response interceptor *)

Lemma on_rejected_other (e : AxiosError) (b : Browser.t) :
  is_401 e = false → on_rejected e b = b.
Proof. unfold on_rejected. by intros ->. Qed.

Lemma on_rejected_401 (e : AxiosError) (b : Browser.t) :
  is_401 e = true →
  on_rejected e b
  = if String.eqb (pathname b) "/login" then removeItem "token" b
    else assign_href "/login" (removeItem "token" b).
Proof.
  unfold on_rejected. intros ->. cbn [removeItem pathname].
  by destruct (String.eqb (pathname b) "/login").
Qed.

Lemma occurrences_app (p : Action → bool) (l1 l2 : list Action) :
  occurrences p (l1 ++ l2) = occurrences p l1 + occurrences p l2.
Proof. unfold occurrences. by rewrite filter_app, length_app. Qed.

Lemma occurrences_one (p : Action → bool) (a : Action) :
  occurrences p [a] = if p a then 1 else 0.
Proof.
  unfold occurrences. rewrite filter_cons, filter_nil.
  destruct (p a); case_decide; done.
Qed.

Lemma count_401_cons (e : AxiosError) (errors : list AxiosError) :
  count_401 (e :: errors)
  = (if is_401 e then 1 else 0) + count_401 errors.
Proof.
  unfold count_401. rewrite filter_cons.
  destruct (is_401 e); case_decide; try done.
Qed.

Lemma handle_all_cons (e : AxiosError) (errors : list AxiosError)
    (b : Browser.t) :
  handle_all (e :: errors) b = handle_all errors (on_rejected e b).
Proof. reflexivity. Qed.

Lemma handle_all_pathname (errors : list AxiosError) (b : Browser.t) :
  pathname (handle_all errors b) = pathname b.
Proof.
  revert b. induction errors as [|e errors IH]; intros b; [reflexivity|].
  rewrite handle_all_cons, IH. unfold on_rejected.
  destruct (is_401 e); [|reflexivity]. cbn [removeItem pathname].
  by destruct (negb _).
Qed.

Lemma handle_all_none (errors : list AxiosError) (b : Browser.t) :
  count_401 errors = 0 → handle_all errors b = b.
Proof.
  revert b. induction errors as [|e errors IH]; intros b; [reflexivity|].
  rewrite count_401_cons, handle_all_cons.
  destruct (is_401 e) eqn:He; [discriminate|].
  intros Hn. rewrite (on_rejected_other e b He). by apply IH.
Qed.

Lemma handle_all_storage (errors : list AxiosError) (b : Browser.t) :
  0 < count_401 errors →
  localStorage (handle_all errors b) = delete "token" (localStorage b)
  ∧ href (handle_all errors b)
    = if String.eqb (pathname b) "/login" then href b else Some "/login".
Proof.
  revert b. induction errors as [|e errors IH]; intros b.
  - cbn. lia.
  - rewrite count_401_cons, handle_all_cons.
    destruct (is_401 e) eqn:He.
    + intros _. destruct (decide (count_401 errors = 0)) as [Hz|Hnz].
      * rewrite (handle_all_none errors _ Hz), (on_rejected_401 e b He).
        by destruct (String.eqb (pathname b) "/login").
      * destruct (IH (on_rejected e b)) as [Hls Hhref]; [lia|].
        rewrite Hls, Hhref, (on_rejected_401 e b He).
        destruct (String.eqb (pathname b) "/login") eqn:Hp;
          cbn [removeItem assign_href localStorage pathname href];
          rewrite Hp; by rewrite delete_delete_eq.
    + rewrite (on_rejected_other e b He). cbn [Nat.add]. apply IH.
Qed.

Lemma handle_all_journal (errors : list AxiosError) (b : Browser.t) :
  occurrences (is_RemoveItem "token") (journal (handle_all errors b))
  = occurrences (is_RemoveItem "token") (journal b) + count_401 errors
  ∧ occurrences (is_AssignHref "/login") (journal (handle_all errors b))
    = occurrences (is_AssignHref "/login") (journal b)
      + (if String.eqb (pathname b) "/login" then 0 else count_401 errors).
Proof.
  revert b. induction errors as [|e errors IH]; intros b.
  - cbn [handle_all foldl]. unfold count_401. cbn.
    destruct (String.eqb (pathname b) "/login"); lia.
  - rewrite count_401_cons, handle_all_cons.
    destruct (IH (on_rejected e b)) as [Hr Ha]. rewrite Hr, Ha.
    destruct (is_401 e) eqn:He.
    + rewrite (on_rejected_401 e b He).
      destruct (String.eqb (pathname b) "/login") eqn:Hp;
        cbn [removeItem assign_href journal pathname];
        rewrite ?Hp, ?occurrences_app, ?occurrences_one;
        cbn [is_RemoveItem is_AssignHref];
        change (String.eqb "token" "token") with true;
        change (String.eqb "/login" "/login") with true;
        cbv beta iota; lia.
    + rewrite (on_rejected_other e b He).
      destruct (String.eqb (pathname b) "/login"); lia.
Qed.

(** The second half of the claim C6 as it is worded fails: two 401
    responses received on [/admin] make the interceptor remove the token
    twice and ask for [/login] twice. *)
Lemma two_unauthorized_counterexample :
  count_401 [Examples.unauthorized; Examples.unauthorized] = 2
  ∧ occurrences (is_RemoveItem "token")
      (journal (handle_all [Examples.unauthorized; Examples.unauthorized]
                  (Browser.load {["token" := "jwt-1"]} "/admin"))) = 2
  ∧ occurrences (is_AssignHref "/login")
      (journal (handle_all [Examples.unauthorized; Examples.unauthorized]
                  (Browser.load {["token" := "jwt-1"]} "/admin"))) = 2
  ∧ occurrences (is_AssignHref "/login")
      (journal (handle_all [Examples.unauthorized; Examples.unauthorized]
                  (Browser.load {["token" := "jwt-1"]} "/admin"))) ≠ 1.
Proof.
  split; [reflexivity|]. split; [reflexivity|]. split; [reflexivity|].
  vm_compute. discriminate.
Qed.

(** C6, amended. For every API response with status 401 the response
    interceptor removes the durable token and, unless the current path is
    already [/login], assigns [/login] to the location. It does so for each
    such response: when several requests are answered 401 in the same
    document, the removal is made once per response and, off [/login], so is
    the assignment. What is left after them is what is left after one: no
    stored token, the same path, and [/login] as the requested location. *)
Theorem unauthorized_responses (errors : list AxiosError) (b : Browser.t) :
  0 < count_401 errors →
  getItem "token" (handle_all errors b) = None
  ∧ localStorage (handle_all errors b) = delete "token" (localStorage b)
  ∧ pathname (handle_all errors b) = pathname b
  ∧ (pathname b ≠ "/login" → href (handle_all errors b) = Some "/login")
  ∧ (pathname b = "/login" → href (handle_all errors b) = href b)
  ∧ (∀ e : AxiosError, is_401 e = true →
       localStorage (handle_all errors b) = localStorage (on_rejected e b)
       ∧ pathname (handle_all errors b) = pathname (on_rejected e b)
       ∧ href (handle_all errors b) = href (on_rejected e b))
  ∧ occurrences (is_RemoveItem "token") (journal (handle_all errors b))
    = occurrences (is_RemoveItem "token") (journal b) + count_401 errors
  ∧ (pathname b ≠ "/login" →
       occurrences (is_AssignHref "/login") (journal (handle_all errors b))
       = occurrences (is_AssignHref "/login") (journal b)
         + count_401 errors)
  ∧ (pathname b = "/login" →
       occurrences (is_AssignHref "/login") (journal (handle_all errors b))
       = occurrences (is_AssignHref "/login") (journal b)).
Proof.
  intros Hn.
  destruct (handle_all_storage errors b Hn) as [Hls Hhref].
  destruct (handle_all_journal errors b) as [Hrem Hnav].
  pose proof (handle_all_pathname errors b) as Hpath.
  split; [unfold getItem; rewrite Hls; apply lookup_delete_eq|].
  split; [exact Hls|]. split; [exact Hpath|].
  split.
  { intros Hp. apply String.eqb_neq in Hp. by rewrite Hhref, Hp. }
  split.
  { intros Hp. apply String.eqb_eq in Hp. by rewrite Hhref, Hp. }
  split.
  { intros e He. rewrite Hls, Hhref, Hpath, (on_rejected_401 e b He).
    by destruct (String.eqb (pathname b) "/login"). }
  split; [exact Hrem|]. split.
  - intros Hp. apply String.eqb_neq in Hp. by rewrite Hnav, Hp.
  - intros Hp. apply String.eqb_eq in Hp. rewrite Hnav, Hp. lia.
Qed.

(** Two 401 responses and a network failure between them, received on
    [/admin]: the token is gone, [/login] is requested, and the journal
    holds two removals and two assignments. *)
Lemma unauthorized_responses_witness :
  0 < count_401 [Examples.unauthorized; {| response := None |};
                 Examples.unauthorized]
  ∧ pathname (Browser.load {["token" := "jwt-1"]} "/admin") ≠ "/login"
  ∧ getItem "token"
      (handle_all [Examples.unauthorized; {| response := None |};
                   Examples.unauthorized]
         (Browser.load {["token" := "jwt-1"]} "/admin")) = None
  ∧ href
      (handle_all [Examples.unauthorized; {| response := None |};
                   Examples.unauthorized]
         (Browser.load {["token" := "jwt-1"]} "/admin")) = Some "/login"
  ∧ occurrences (is_AssignHref "/login")
      (journal
         (handle_all [Examples.unauthorized; {| response := None |};
                      Examples.unauthorized]
            (Browser.load {["token" := "jwt-1"]} "/admin")))
    = 0 + 2.
Proof.
  assert (Hn : 0 < count_401 [Examples.unauthorized; {| response := None |};
                              Examples.unauthorized])
    by (vm_compute; lia).
  assert (Hp : pathname (Browser.load {["token" := "jwt-1"]} "/admin")
               ≠ "/login") by discriminate.
  pose proof (unauthorized_responses _
                (Browser.load {["token" := "jwt-1"]} "/admin") Hn)
    as (Hgone & _ & _ & Hhref & _ & _ & _ & Hnav & _).
  split; [exact Hn|]. split; [exact Hp|]. split; [exact Hgone|].
  split; [exact (Hhref Hp)|]. exact (Hnav Hp).
Defined.

(** *** [parseErrorMessage] *)

Section parseErrorMessage_facts.
Context `{Runtime}.

Lemma map_throwing_message_of (items : list json) :
  JNull ∉ items →
  map_throwing message_of_item items = Normal (map message_of items).
Proof.
  induction items as [|d items IH]; [reflexivity|].
  rewrite not_elem_of_cons. intros [Hd Hitems].
  cbn [map_throwing map]. rewrite (IH Hitems).
  destruct d; try reflexivity. congruence.
Qed.

Lemma message_of_msg (d : json) (m : string) :
  get d "msg" = Some (JStr m) → m ≠ EmptyString →
  join_item (message_of d) = Normal m.
Proof.
  intros Hm Hne. unfold message_of. rewrite Hm. cbn.
  destruct m; [congruence | reflexivity].
Qed.

Lemma structured_messages (items : list json) (msgs : list string) :
  Forall2 (λ d m, get d "msg" = Some (JStr m) ∧ m ≠ EmptyString)
    items msgs →
  (JNull ∉ items)
  ∧ map_throwing join_item (map message_of items) = Normal msgs.
Proof.
  induction 1 as [|d m items msgs [Hm Hne] _ [IHnull IHmap]].
  - split; [apply not_elem_of_nil | reflexivity].
  - split.
    + rewrite not_elem_of_cons. split; [|exact IHnull].
      intros <-. discriminate.
    + cbn [map map_throwing] in *.
      by rewrite (message_of_msg d m Hm Hne), IHmap.
Qed.

(** C7, amended. [parseErrorMessage] answers by this order of preference on
    the [detail] that the error carries: a non-empty string is returned as
    it is; of a list without [null], the messages of its items ([msg], else
    [message], else the item's JSON text), once each is converted to a
    string, are joined with [", "], so a list of structured validation
    messages gives their messages joined; of an object, its own message
    ([msg], else [message], else its JSON text) is returned; in every other
    case (no response, no [detail], an empty string, a number or a boolean)
    the default message is returned, ["Server error"] unless the caller
    gave one. *)
Theorem parseErrorMessage_cases (error : AxiosError)
    (defaultMessage : option string) :
  (∀ s : string, detail_of error = Some (JStr s) → s ≠ EmptyString →
     parseErrorMessage error defaultMessage = Normal (JStr s))
  ∧ (∀ (items : list json) (strs : list string),
       detail_of error = Some (JArr items) →
       JNull ∉ items →
       map_throwing join_item (map message_of items) = Normal strs →
       parseErrorMessage error defaultMessage
       = Normal (JStr (Js.join ", " strs)))
  ∧ (∀ (items : list json) (msgs : list string),
       detail_of error = Some (JArr items) →
       Forall2 (λ d m, get d "msg" = Some (JStr m) ∧ m ≠ EmptyString)
         items msgs →
       parseErrorMessage error defaultMessage
       = Normal (JStr (Js.join ", " msgs)))
  ∧ (∀ fields : list (string * json),
       detail_of error = Some (JObj fields) →
       parseErrorMessage error defaultMessage
       = Normal (message_of (JObj fields)))
  ∧ (detail_of error = None
     ∨ detail_of error = Some JNull
     ∨ detail_of error = Some (JStr EmptyString)
     ∨ (∃ n : Z, detail_of error = Some (JNum n))
     ∨ (∃ b : bool, detail_of error = Some (JBool b)) →
     parseErrorMessage error defaultMessage
     = Normal (JStr (default "Server error" defaultMessage))).
Proof.
  assert (Harr : ∀ (items : list json) (strs : list string),
            detail_of error = Some (JArr items) →
            JNull ∉ items →
            map_throwing join_item (map message_of items) = Normal strs →
            parseErrorMessage error defaultMessage
            = Normal (JStr (Js.join ", " strs))).
  { intros items strs Hd Hnull Hstrs. unfold parseErrorMessage. rewrite Hd.
    cbn [Json.truthy]. rewrite (map_throwing_message_of items Hnull).
    cbn [mbind Js.completion_bind]. by rewrite Hstrs. }
  split.
  { intros s Hd Hne. unfold parseErrorMessage. rewrite Hd.
    destruct s; [congruence | reflexivity]. }
  split; [exact Harr|]. split.
  { intros items msgs Hd Hall.
    destruct (structured_messages items msgs Hall) as [Hnull Hmap].
    by apply (Harr items). }
  split.
  { intros fields Hd. unfold parseErrorMessage. by rewrite Hd. }
  intros [Hd|[Hd|[Hd|[[n Hd]|[b Hd]]]]];
    unfold parseErrorMessage; rewrite Hd; try reflexivity.
  - cbn [Json.truthy]. by destruct (negb (n =? 0)%Z).
  - by destruct b.
Qed.

End parseErrorMessage_facts.

(** The claim C7 as it is worded fails on a [detail] that is an object: it
    is neither a string nor a list, yet its message is returned, not the
    default one. *)
Lemma parseErrorMessage_object_counterexample :
  detail_of Examples.conflict = Some (JObj [("msg", JStr "Email taken")])
  ∧ @parseErrorMessage reference_runtime Examples.conflict None
    = Normal (JStr "Email taken")
  ∧ @parseErrorMessage reference_runtime Examples.conflict None
    ≠ Normal (JStr "Server error").
Proof.
  split; [reflexivity|]. split; [reflexivity | discriminate].
Qed.

(** The two messages of a validation failure, joined. *)
Lemma parseErrorMessage_cases_witness :
  detail_of Examples.invalid
  = Some (JArr [JObj [("loc", JArr [JStr "email"]);
                      ("msg", JStr "field required")];
                JObj [("loc", JArr [JStr "phone"]);
                      ("msg", JStr "too short")]])
  ∧ @parseErrorMessage reference_runtime Examples.invalid None
    = Normal (JStr "field required, too short").
Proof.
  split; [reflexivity|].
  apply (proj1 (proj2 (proj2
           (@parseErrorMessage_cases reference_runtime Examples.invalid None)))
           _ ["field required"; "too short"] eq_refl).
  repeat constructor; discriminate.
Defined.

End ApiFacts.

(** ** The session store *)

Module AuthFacts.
Import Browser Api AuthContext.

Lemma token_effect_user (s : Session) : user (token_effect s) = user s.
Proof. unfold token_effect. by destruct (Js.truthy (token s)). Qed.

Lemma token_effect_token (s : Session) : token (token_effect s) = token s.
Proof. unfold token_effect. by destruct (Js.truthy (token s)). Qed.

Lemma rerender_user (previous : option string) (s : Session) :
  user (rerender previous s) = user s.
Proof. unfold rerender. case_decide; [done | apply token_effect_user]. Qed.

Lemma rerender_token (previous : option string) (s : Session) :
  token (rerender previous s) = token s.
Proof. unfold rerender. case_decide; [done | apply token_effect_token]. Qed.

Lemma rerender_same (s : Session) : rerender (token s) s = s.
Proof. unfold rerender. by case_decide. Qed.

(** A document loaded with no usable token stored: the effect only clears
    [loading]. *)
Lemma mount_without_token (b : Browser.t) :
  Js.truthy (getItem "token" b) = false →
  mount b = setLoading false (init b).
Proof. intros Ht. unfold mount, token_effect. cbn [init token]. by rewrite Ht. Qed.

Lemma logout_twice (s : Session) :
  state_of (logout (logout s)) = state_of (logout s).
Proof.
  unfold state_of, logout. cbn. by rewrite delete_delete_eq.
Qed.

(** C8. [logout] clears the durable token and the Identity (and the token
    kept in memory), and calling it again on the state it leaves changes
    nothing, whether or not the token effect runs in between. A session that
    starts with no stored token, as the one after a logout and a page load
    does, comes to [loading = false] and [isAuthenticated = false] by the
    effect alone: no request is sent and none is pending. *)
Theorem logout_clears_and_cold_start :
  (∀ s : Session,
     getItem "token" (browser (logout s)) = None
     ∧ token (logout s) = None
     ∧ user (logout s) = None
     ∧ isAuthenticated (logout s) = false
     ∧ state_of (logout (logout s)) = state_of (logout s))
  ∧ (∀ s s1 s2 : Session,
       step Logout s = Some s1 → step Logout s1 = Some s2 →
       state_of s2 = state_of s1)
  ∧ (∀ (ls : gmap string string) (path : string),
       ls !! "token" = None →
       loading (mount (Browser.load ls path)) = false
       ∧ isAuthenticated (mount (Browser.load ls path)) = false
       ∧ user (mount (Browser.load ls path)) = None
       ∧ occurrences is_Send
           (journal (browser (mount (Browser.load ls path)))) = 0
       ∧ inflight (mount (Browser.load ls path)) = 0)
  ∧ (∀ (s : Session) (path : string),
       loading (mount (Browser.load (localStorage (browser (logout s)))
                         path)) = false
       ∧ isAuthenticated
           (mount (Browser.load (localStorage (browser (logout s))) path))
         = false
       ∧ occurrences is_Send
           (journal (browser
              (mount (Browser.load (localStorage (browser (logout s)))
                        path)))) = 0).
Proof.
  assert (Hcold : ∀ (ls : gmap string string) (path : string),
            ls !! "token" = None →
            mount (Browser.load ls path)
            = setLoading false (init (Browser.load ls path))).
  { intros ls path Hls. apply mount_without_token.
    unfold getItem. cbn. by rewrite Hls. }
  split; [|split; [|split]].
  - intros s. split; [apply lookup_delete_eq|].
    repeat split. apply logout_twice.
  - intros s s1 s2 H1 H2. cbn [step] in H1, H2.
    injection H1 as <-. injection H2 as <-.
    rewrite (rerender_token (token s) (logout s)).
    change (token (logout s)) with (@None string).
    set (s1 := rerender (token s) (logout s)).
    assert (Ht : token s1 = None) by apply rerender_token.
    assert (Hs : logout s1 = rerender (token s1) (logout s1)).
    { unfold rerender. rewrite Ht. by case_decide. }
    unfold rerender at 1. cbn [logout setUser setToken token].
    case_decide; [|done].
    unfold state_of, logout. cbn.
    assert (Hu : user s1 = None) by apply rerender_user.
    assert (Hls : localStorage (browser s1) !! "token" = None).
    { unfold s1, rerender, token_effect. cbn.
      case_decide; cbn; apply lookup_delete_eq. }
    rewrite Ht, Hu. by rewrite (delete_id _ _ Hls).
  - intros ls path Hls. rewrite (Hcold ls path Hls). by repeat split.
  - intros s path.
    change (localStorage (browser (logout s)))
      with (delete "token" (localStorage (browser s))).
    rewrite (Hcold _ path (lookup_delete_eq (localStorage (browser s)) _)).
    by repeat split.
Qed.

(** A first visit with an empty storage. *)
Lemma logout_clears_and_cold_start_witness :
  (∅ : gmap string string) !! "token" = None
  ∧ loading (mount (Browser.load ∅ "/")) = false
  ∧ isAuthenticated (mount (Browser.load ∅ "/")) = false
  ∧ occurrences is_Send (journal (browser (mount (Browser.load ∅ "/")))) = 0.
Proof.
  pose proof (proj1 (proj2 (proj2 logout_clears_and_cold_start)) ∅ "/"
                eq_refl) as (Hl & Ha & _ & Hs & _).
  split; [reflexivity|]. split; [exact Hl|]. split; [exact Ha | exact Hs].
Defined.

(** *** Token and Identity *)

Lemma mount_consistent (b : Browser.t) : consistent (mount b).
Proof. intros _. unfold mount. by rewrite token_effect_user. Qed.

Lemma step_consistent (ev : Event) (s s' : Session) :
  timely ev s = true → step ev s = Some s' →
  consistent s → consistent s'.
Proof.
  unfold consistent. intros Htimely Hstep Hs.
  destruct ev; cbn [step] in Hstep; cbn [timely] in Htimely.
  - (* MeResolved *)
    case_bool_decide; [|discriminate]. injection Hstep as <-.
    apply bool_decide_eq_true in Htimely as [t Ht]. cbn. congruence.
  - (* MeRejected *)
    case_bool_decide; [|discriminate]. injection Hstep as <-.
    intros _. by rewrite rerender_user.
  - (* Login *)
    injection Hstep as <-. rewrite rerender_token. discriminate.
  - (* LoginRejected *)
    injection Hstep as <-. exact Hs.
  - (* Register *)
    injection Hstep as <-. rewrite rerender_token. discriminate.
  - (* Logout *)
    injection Hstep as <-. intros _. by rewrite rerender_user.
  - (* UpdateUser *)
    injection Hstep as <-.
    apply bool_decide_eq_true in Htimely as [t Ht]. cbn. congruence.
  - (* ApiRejected *)
    injection Hstep as <-. exact Hs.
  - (* Routed *)
    injection Hstep as <-. exact Hs.
  - (* Navigated *)
    destruct (href (browser s)); [|discriminate]. injection Hstep as <-.
    apply mount_consistent.
Qed.

Lemma run_timely_consistent (evs : list Event) (s s' : Session) :
  run_timely evs s = Some s' → consistent s → consistent s'.
Proof.
  revert s. induction evs as [|ev evs IH]; intros s Hrun Hs.
  - cbn in Hrun. by injection Hrun as <-.
  - cbn [run_timely] in Hrun.
    destruct (timely ev s) eqn:Ht; [|discriminate].
    destruct (step ev s) as [s1|] eqn:Hstep; [|discriminate].
    cbn in Hrun. apply (IH s1 Hrun). by apply (step_consistent ev s).
Qed.

Lemma run_timely_run (evs : list Event) (s s' : Session) :
  run_timely evs s = Some s' → run evs s = Some s'.
Proof.
  revert s. induction evs as [|ev evs IH]; intros s Hrun; [exact Hrun|].
  cbn [run_timely] in Hrun. destruct (timely ev s); [|discriminate].
  cbn [run]. destruct (step ev s) as [s1|]; [|discriminate].
  cbn in *. by apply IH.
Qed.

(** The claim C9 as it is worded fails: a visitor logs in, which makes the
    token effect send [/auth/me]; they log out before the answer; the
    answer then sets the Identity in a session that holds no token, in
    memory or stored. *)
Lemma late_answer_run :
  run Examples.late_answer (mount (Browser.load ∅ "/login"))
  = Some Examples.after_late_answer.
Proof. vm_compute. reflexivity. Qed.

Lemma stale_identity_counterexample :
  run Examples.late_answer (mount (Browser.load ∅ "/login"))
  = Some Examples.after_late_answer
  ∧ reachable Examples.after_late_answer
  ∧ token Examples.after_late_answer = None
  ∧ getItem "token" (browser Examples.after_late_answer) = None
  ∧ user Examples.after_late_answer = Some (Examples.member "client")
  ∧ isAuthenticated Examples.after_late_answer = true.
Proof.
  split; [exact late_answer_run|].
  split; [exists ∅, "/login", Examples.late_answer; exact late_answer_run|].
  split; [vm_compute; reflexivity|].
  split; [vm_compute; reflexivity|].
  split; vm_compute; reflexivity.
Qed.

(** X22. What the 401 interceptor restores: from any session shown off
    [/login], a 401 response and the reload it asks for end in a session
    with no token and no Identity. *)
Lemma unauthorized_then_reload (s : Session) (e : AxiosError) :
  is_401 e = true →
  pathname (browser s) ≠ "/login" →
  ∃ s' : Session,
    run [ApiRejected e; Navigated] s = Some s'
    ∧ getItem "token" (browser s') = None
    ∧ token s' = None
    ∧ user s' = None
    ∧ loading s' = false.
Proof.
  intros He Hp. apply String.eqb_neq in Hp.
  cbn [run step mbind option_bind on_browser browser].
  rewrite (ApiFacts.on_rejected_401 e (browser s) He), Hp.
  cbn [assign_href href mbind option_bind removeItem localStorage].
  eexists. split; [reflexivity|].
  rewrite mount_without_token
    by (unfold getItem; cbn; by rewrite lookup_delete_eq).
  cbn. rewrite lookup_delete_eq. by repeat split.
Qed.

(** C9, amended. In every session produced from a page load by login,
    register, logout, a failed identity fetch, the handling of 401 and other
    failed responses, route changes and reloads, and by an answer to
    [/auth/me] or an [updateUser] that arrives while the session still holds
    a token, the token and the Identity are consistent: if the token is
    absent, so is the Identity. The session holds one Identity at most. *)
Theorem token_identity_consistent (ls : gmap string string) (path : string)
    (evs : list Event) (s : Session) :
  run_timely evs (mount (Browser.load ls path)) = Some s →
  reachable s
  ∧ (token s = None → user s = None)
  ∧ (∀ u1 u2 : Identity, user s = Some u1 → user s = Some u2 → u1 = u2).
Proof.
  intros Hrun. split; [|split].
  - exists ls, path, evs. by apply run_timely_run.
  - apply (run_timely_consistent evs _ s Hrun), mount_consistent.
  - congruence.
Qed.

(** A visit that ends with a logout, every answer arriving in time. *)
Lemma token_identity_consistent_witness :
  run_timely Examples.timely_visit (mount (Browser.load ∅ "/login"))
  = Some Examples.after_timely_visit
  ∧ (token Examples.after_timely_visit = None →
     user Examples.after_timely_visit = None).
Proof.
  assert (Hrun : run_timely Examples.timely_visit
                   (mount (Browser.load ∅ "/login"))
                 = Some Examples.after_timely_visit)
    by (vm_compute; reflexivity).
  split; [exact Hrun|].
  exact (proj1 (proj2 (token_identity_consistent ∅ "/login"
                         Examples.timely_visit Examples.after_timely_visit
                         Hrun))).
Defined.

End AuthFacts.

(** ** The base URL *)

Module ConfigFacts.
Import Config.

Lemma replace_first_miss (pat rep s : string) :
  startsWith pat s = false →
  replace_first pat rep s
  = match s with
    | EmptyString => EmptyString
    | String a s' => String a (replace_first pat rep s')
    end.
Proof. intros Hp. destruct s; cbn [replace_first]; by rewrite Hp. Qed.

Lemma replace_first_hit (pat rep s : string) :
  startsWith pat s = true →
  replace_first pat rep s = rep ++ drop (String.length pat) s.
Proof. intros Hp. destruct s; cbn [replace_first]; by rewrite Hp. Qed.

Lemma prefix_cons_inv (c a : ascii) (q s : string) :
  startsWith (String c q) (String a s) = true →
  a = c ∧ startsWith q s = true.
Proof.
  cbn [startsWith]. rewrite andb_true_iff, Ascii.eqb_eq. by intros [-> ?].
Qed.

(** One character of [http://] other than its first, matched against the
    rewritten text: it is a character of the text itself. *)
Lemma upgraded_peel (c : ascii) (q s : string) :
  c ≠ "h"%char →
  startsWith (String c q) (replace_first "http://" "https://" s) = true →
  ∃ s' : string,
    s = String c s'
    ∧ startsWith q (replace_first "http://" "https://" s') = true.
Proof.
  intros Hc Hp. destruct (startsWith "http://" s) eqn:Hs.
  - rewrite (replace_first_hit _ _ _ Hs) in Hp.
    apply prefix_cons_inv in Hp as [Heq _]. congruence.
  - rewrite (replace_first_miss _ _ _ Hs) in Hp. destruct s as [|a s].
    + discriminate.
    + apply prefix_cons_inv in Hp as [-> Hq]. by exists s.
Qed.

Lemma replace_first_not_http (s : string) :
  startsWith "http://" (replace_first "http://" "https://" s) = false.
Proof.
  destruct (startsWith "http://" s) eqn:Hs.
  - by rewrite (replace_first_hit _ _ _ Hs).
  - apply not_true_is_false. intros Hp.
    rewrite (replace_first_miss _ _ _ Hs) in Hp. destruct s as [|a s0].
    + discriminate.
    + apply prefix_cons_inv in Hp as [-> Hp].
      apply upgraded_peel in Hp as (s1 & -> & Hp); [|discriminate].
      apply upgraded_peel in Hp as (s2 & -> & Hp); [|discriminate].
      apply upgraded_peel in Hp as (s3 & -> & Hp); [|discriminate].
      apply upgraded_peel in Hp as (s4 & -> & Hp); [|discriminate].
      apply upgraded_peel in Hp as (s5 & -> & Hp); [|discriminate].
      apply upgraded_peel in Hp as (s6 & -> & Hp); [|discriminate].
      vm_compute in Hs. discriminate.
Qed.

Lemma prefix_https_not_http (s : string) :
  startsWith "https://" s = true → startsWith "http://" s = false.
Proof.
  intros Hp.
  repeat (destruct s as [|? s]; [discriminate|];
          apply prefix_cons_inv in Hp as [-> Hp]).
  reflexivity.
Qed.

(** X1. On a page served over https, [getBaseUrl] never answers a URL that
    starts with [http://], whatever the environment holds: a URL that does
    start with [http://] is answered with [https://] in its place. Off
    https, or when the URL already starts with [https://], the environment
    value is answered as it is (the empty string when it is not set). *)
Theorem getBaseUrl_no_plain_http (env : option string) :
  startsWith "http://" (getBaseUrl env "https:") = false
  ∧ (∀ rest : string, env = Some ("http://" ++ rest) →
       getBaseUrl env "https:" = "https://" ++ rest
       ∧ API_URL env "https:" = "https://" ++ rest ++ "/api")
  ∧ (∀ protocol : string, protocol ≠ "https:" →
       getBaseUrl env protocol = Js.or_else env EmptyString)
  ∧ (∀ (url protocol : string), env = Some url →
       startsWith "https://" url = true →
       getBaseUrl env protocol = url).
Proof.
  split; [|split; [|split]].
  - unfold getBaseUrl. cbn zeta.
    change (String.eqb "https:" "https:") with true. rewrite andb_true_r.
    destruct (Js.truthy_string (Js.or_else env EmptyString)) eqn:Ht;
      cbn [andb].
    + destruct (startsWith "https://" (Js.or_else env EmptyString))
        eqn:Hs; cbn [negb].
      * by apply prefix_https_not_http.
      * apply replace_first_not_http.
    + by destruct (Js.or_else env EmptyString).
  - intros rest ->.
    assert (Hg : getBaseUrl (Some ("http://" ++ rest)) "https:"
                 = "https://" ++ rest) by reflexivity.
    split; [exact Hg|]. unfold API_URL. rewrite Hg. reflexivity.
  - intros protocol Hp. unfold getBaseUrl. cbn zeta.
    apply String.eqb_neq in Hp. rewrite Hp. by rewrite andb_false_r.
  - intros url protocol -> Hs. unfold getBaseUrl. cbn zeta.
    destruct url; [discriminate|]. cbn [Js.or_else Js.truthy_string].
    rewrite Hs. reflexivity.
Qed.

Lemma getBaseUrl_no_plain_http_witness :
  getBaseUrl (Some ("http://" ++ "api.timeflow.test")) "https:"
  = "https://api.timeflow.test"
  ∧ API_URL (Some ("http://" ++ "api.timeflow.test")) "https:"
    = "https://api.timeflow.test/api"
  ∧ "http:" ≠ "https:"
  ∧ getBaseUrl (Some ("http://" ++ "api.timeflow.test")) "http:"
    = "http://api.timeflow.test".
Proof.
  pose proof (getBaseUrl_no_plain_http
                (Some ("http://" ++ "api.timeflow.test")))
    as (_ & Hup & Hoff & _).
  destruct (Hup "api.timeflow.test" eq_refl) as [Hg Ha].
  split; [exact Hg|]. split; [exact Ha|].
  assert (Hne : "http:" ≠ "https:") by discriminate.
  split; [exact Hne|]. exact (Hoff "http:" Hne).
Defined.

End ConfigFacts.

(** ** More on the API gateway client *)

Module ApiMore.
Import Json Browser Api.

Lemma endsWith_cons (c a b : ascii) (s : string) :
  Js.endsWith c (String a (String b s)) = Js.endsWith c (String b s).
Proof. reflexivity. Qed.

Lemma endsWith_snoc (c : ascii) (p : string) :
  Js.endsWith c (p ++ String c EmptyString) = true.
Proof.
  induction p as [|a p IH].
  - cbn. apply Ascii.eqb_refl.
  - rewrite ApiFacts.append_cons. destruct p as [|b p].
    + cbn. apply Ascii.eqb_refl.
    + rewrite ApiFacts.append_cons in *. by rewrite endsWith_cons.
Qed.

Lemma append_snoc_assoc (p q : string) (c : ascii) :
  p ++ String c q = (p ++ String c EmptyString) ++ q.
Proof.
  induction p as [|a p IH]; [reflexivity|].
  rewrite !ApiFacts.append_cons. by rewrite IH.
Qed.

(** The text up to the first separator, and the rest. *)
Lemma contains_first (c : ascii) (s : string) :
  Js.contains c s = true →
  ∃ p r : string, s = p ++ String c r ∧ Js.contains c p = false.
Proof.
  induction s as [|a s IH]; [discriminate|].
  cbn [Js.contains]. destruct (Ascii.eqb a c) eqn:Ha.
  - intros _. apply Ascii.eqb_eq in Ha as ->. by exists EmptyString, s.
  - intros Hs. destruct (IH Hs) as (p & r & -> & Hp).
    exists (String a p), r. split; [reflexivity|].
    cbn [Js.contains]. by rewrite Ha.
Qed.

Lemma split_head (c : ascii) (s : string) :
  ∃ (q : string) (rest : list string),
    Js.split c s = q :: rest ∧ Js.contains c q = false.
Proof.
  induction s as [|a s (q & rest & IH & Hq)].
  - by exists EmptyString, [].
  - cbn [Js.split]. destruct (Ascii.eqb a c) eqn:Ha.
    + by exists EmptyString, (Js.split c s).
    + rewrite IH. exists (String a q), rest. split; [reflexivity|].
      cbn [Js.contains]. by rewrite Ha.
Qed.

(** The URL of a request with a query string, whatever follows the first
    [?]: [q] is what lies between it and the next one. *)
Lemma with_trailing_slash_first_query (p r q : string)
    (rest : list string) :
  Js.contains "?" p = false →
  Js.split "?" r = q :: rest →
  with_trailing_slash (Some (p ++ String "?" r))
  = Some (if Js.endsWith "/" p then p ++ String "?" r
          else (p ++ "/") ++ String "?" q).
Proof.
  intros Hp Hr. unfold with_trailing_slash.
  assert (Hc : Js.contains "?" (p ++ String "?" r) = true).
  { rewrite ApiFacts.contains_append. cbn. by rewrite orb_true_r. }
  assert (Ht : Js.truthy_string (p ++ String "?" r) = true).
  { rewrite ApiFacts.truthy_append. cbn. by rewrite orb_true_r. }
  rewrite Hc, Ht, (ApiFacts.split_at_first _ p r Hp), Hr.
  cbn [negb andb lookup list_lookup default from_option id].
  rewrite andb_false_r. cbn [andb].
  destruct (Js.endsWith "/" p); cbn [negb]; [reflexivity|].
  f_equal. change ("/?" ++ q) with (String "/" (String "?" q)).
  apply append_snoc_assoc.
Qed.

(** What the URL rewriting answers, in the three shapes a URL can have. *)
Lemma with_trailing_slash_shape (u : string) :
  (u = EmptyString ∧ with_trailing_slash (Some u) = Some u)
  ∨ (∃ p : string,
       Js.contains "?" p = false ∧ Js.endsWith "/" p = true
       ∧ with_trailing_slash (Some u) = Some p)
  ∨ (∃ p q : string,
       Js.contains "?" p = false ∧ Js.endsWith "/" p = true
       ∧ Js.contains "?" q = false
       ∧ with_trailing_slash (Some u) = Some (p ++ String "?" q)
       ∨ (Js.contains "?" p = false ∧ Js.endsWith "/" p = true
          ∧ u = p ++ String "?" q
          ∧ with_trailing_slash (Some u) = Some u)).
Proof.
  destruct u as [|a u]; [by left|]. right.
  destruct (Js.contains "?" (String a u)) eqn:Hc.
  - right. destruct (contains_first _ _ Hc) as (p & r & Hu & Hp).
    destruct (split_head "?" r) as (q & rest & Hr & Hq).
    rewrite Hu, (with_trailing_slash_first_query p r q rest Hp Hr).
    destruct (Js.endsWith "/" p) eqn:He.
    + exists p, r. by right.
    + exists (p ++ "/"), q. left.
      rewrite ApiFacts.contains_append, Hp. cbn [orb].
      split; [reflexivity|]. by split; [apply endsWith_snoc|].
  - left. rewrite (ApiFacts.with_trailing_slash_plain _ Hc).
    cbn [Js.truthy_string andb].
    destruct (Js.endsWith "/" (String a u)) eqn:He; cbn [negb].
    + by exists (String a u).
    + exists (String a u ++ "/").
      rewrite ApiFacts.contains_append, Hc.
      split; [reflexivity|]. by split; [apply endsWith_snoc|].
Qed.

(** A URL whose path ends in a slash is left as it is. *)
Lemma with_trailing_slash_fixed (p : string) (tail : option string) :
  Js.contains "?" p = false → Js.endsWith "/" p = true →
  with_trailing_slash
    (Some (match tail with Some r => p ++ String "?" r | None => p end))
  = Some (match tail with Some r => p ++ String "?" r | None => p end).
Proof.
  intros Hp He. destruct tail as [r|].
  - destruct (split_head "?" r) as (q & rest & Hr & _).
    by rewrite (with_trailing_slash_first_query p r q rest Hp Hr), He.
  - rewrite (ApiFacts.with_trailing_slash_plain _ Hp), He.
    by rewrite andb_false_r.
Qed.

Lemma with_trailing_slash_idempotent (u : option string) :
  with_trailing_slash (with_trailing_slash u) = with_trailing_slash u.
Proof.
  destruct u as [u|]; [|reflexivity].
  destruct (with_trailing_slash_shape u)
    as [[-> H]|[(p & Hp & He & H)|(p & q & [(Hp & He & Hq & H)|(Hp & He & Hu & H)])]];
    rewrite H.
  - reflexivity.
  - exact (with_trailing_slash_fixed p None Hp He).
  - exact (with_trailing_slash_fixed p (Some q) Hp He).
  - rewrite Hu. exact (with_trailing_slash_fixed p (Some q) Hp He).
Qed.

Lemma with_token_idempotent (token : option string)
    (h : gmap string string) :
  with_token token (with_token token h) = with_token token h.
Proof.
  unfold with_token. destruct token as [t|]; [|reflexivity].
  destruct (Js.truthy_string t); [|reflexivity].
  apply insert_insert_eq.
Qed.

(** X2. Every request with a non-empty URL leaves the interceptor with a
    slash at the end of its path, the part of the URL before the first
    [?]. *)
Theorem request_path_ends_in_slash (b : Browser.t) (config : RequestConfig)
    (u : string) :
  url config = Some u → u ≠ EmptyString →
  ∃ (u' p : string) (rest : list string),
    url (request_fulfilled b config) = Some u'
    ∧ Js.split "?" u' = p :: rest
    ∧ Js.endsWith "/" p = true.
Proof.
  intros Hu Hne. unfold request_fulfilled. cbn [url]. rewrite Hu.
  destruct (with_trailing_slash_shape u)
    as [[-> _]|[(p & Hp & He & H)|(p & q & [(Hp & He & Hq & H)|(Hp & He & Hq & H)])]];
    [congruence| | |]; rewrite H.
  - exists p, p, []. by rewrite (ApiFacts.split_without _ p Hp).
  - exists (p ++ String "?" q), p, (Js.split "?" q).
    by rewrite (ApiFacts.split_at_first _ p q Hp).
  - rewrite Hq. exists (p ++ String "?" q), p, (Js.split "?" q).
    by rewrite (ApiFacts.split_at_first _ p q Hp).
Qed.

Lemma request_path_ends_in_slash_witness :
  url (request_fulfilled (Browser.load ∅ "/")
         {| url := Some "/appointments?status=pending"; method := "get";
            data := NoBody; headers := ∅ |})
  = Some "/appointments/?status=pending"
  ∧ ∃ (u' p : string) (rest : list string),
      url (request_fulfilled (Browser.load ∅ "/")
             {| url := Some "/appointments?status=pending";
                method := "get"; data := NoBody; headers := ∅ |})
      = Some u'
      ∧ Js.split "?" u' = p :: rest
      ∧ Js.endsWith "/" p = true.
Proof.
  split; [reflexivity|].
  apply (request_path_ends_in_slash _ _ "/appointments?status=pending");
    [reflexivity | discriminate].
Defined.

(** X3. The request interceptor is idempotent: a request that has passed it
    passes it again unchanged, so a request sent a second time gets neither
    a second slash nor a different header. *)
Theorem request_fulfilled_idempotent (b : Browser.t)
    (config : RequestConfig) :
  request_fulfilled b (request_fulfilled b config)
  = request_fulfilled b config.
Proof.
  unfold request_fulfilled. cbn [url method data headers].
  by rewrite with_trailing_slash_idempotent, with_token_idempotent.
Qed.

End ApiMore.

(** ** More on [parseErrorMessage] *)

Module ErrorFacts.
Import Json Browser Api.

Section with_runtime.
Context `{Runtime}.

(** The callback of [detail.map] over a whole list. *)
Lemma map_throwing_outcome (items : list json) :
  (JNull ∈ items ∧ map_throwing message_of_item items = Throws "TypeError")
  ∨ ((JNull ∉ items)
     ∧ map_throwing message_of_item items = Normal (map message_of items)).
Proof.
  induction items as [|d items IH].
  - right. split; [apply not_elem_of_nil | reflexivity].
  - cbn [map_throwing map]. destruct d.
    1: { left. split; [apply elem_of_cons; by left | reflexivity]. }
    all: destruct IH as [[Hin Ht]|[Hout Hn]];
      [left; split; [apply elem_of_cons; by right | by rewrite Ht]
      |right; split;
        [rewrite not_elem_of_cons; split; [discriminate | exact Hout]
        |by rewrite Hn]].
Qed.

(** A [map] with a callback that may throw throws exactly when the callback
    throws on an element. *)
Lemma map_throwing_throws {A B} (f : A → completion B) (xs : list A) :
  (∃ err : string, map_throwing f xs = Throws err)
  ↔ (∃ x : A, x ∈ xs ∧ ∃ err : string, f x = Throws err).
Proof.
  induction xs as [|x xs IH].
  - split; [intros [err ?]; discriminate|].
    intros (x & Hin & _). by apply elem_of_nil in Hin.
  - cbn [map_throwing]. destruct (f x) as [y|e] eqn:Hfx; cbn.
    + destruct (map_throwing f xs) as [ys|e] eqn:Hrest; cbn.
      * split; [intros [err ?]; discriminate|].
        intros (x' & Hin & err & Hthrow).
        apply elem_of_cons in Hin as [->|Hin]; [congruence|].
        destruct (proj2 IH) as [err' ?]; [|discriminate]. eauto.
      * split; [|by eauto]. intros _.
        destruct (proj1 IH) as (x' & Hin & Hthrow); [by eauto|].
        exists x'. split; [apply elem_of_cons; by right | exact Hthrow].
    + split; [|by eauto]. intros _. exists x.
      split; [apply elem_of_cons; by left | by eauto].
Qed.

(** X4. [parseErrorMessage] throws in two cases only, both on a [detail]
    that is a list: when the list holds [null], whose [msg] it tries to
    read, and when the message of an item cannot be converted to a string
    for the join. On every other error it returns a value. *)
Theorem parseErrorMessage_throws_iff (error : AxiosError)
    (defaultMessage : option string) :
  (∃ err : string, parseErrorMessage error defaultMessage = Throws err)
  ↔ (∃ items : list json,
       detail_of error = Some (JArr items)
       ∧ (JNull ∈ items
          ∨ ∃ d : json,
              d ∈ items
              ∧ ∃ err : string, join_item (message_of d) = Throws err)).
Proof.
  unfold parseErrorMessage. split.
  - intros [err Hthrow]. destruct (detail_of error) as [d|]; [|discriminate].
    destruct d as [|b|n|s|items|fields]; cbn [Json.truthy] in Hthrow;
      try (by destruct (Js.truthy_string s));
      try (by destruct b); try (by destruct (negb (n =? 0)%Z));
      try discriminate.
    exists items. split; [reflexivity|].
    destruct (map_throwing_outcome items) as [[Hin _]|[_ Hn]];
      [by left|right].
    rewrite Hn in Hthrow. cbn [mbind Js.completion_bind] in Hthrow.
    destruct (proj1 (map_throwing_throws join_item (map message_of items)))
      as (m & Hm & Hconv).
    { destruct (map_throwing join_item (map message_of items));
        [discriminate | by eauto]. }
    change (m ∈ message_of <$> items) in Hm.
    apply list_elem_of_fmap in Hm as (d & -> & Hd). by exists d.
  - intros (items & -> & Hcase). cbn [Json.truthy].
    destruct (map_throwing_outcome items) as [[_ Ht]|[Hout Hn]].
    { rewrite Ht. by exists "TypeError". }
    destruct Hcase as [Hin|(d & Hd & Hconv)]; [contradiction|].
    rewrite Hn. cbn [mbind Js.completion_bind].
    destruct (proj2 (map_throwing_throws join_item (map message_of items)))
      as [err Herr].
    { exists (message_of d). split; [|exact Hconv].
      change (message_of d ∈ message_of <$> items).
      apply list_elem_of_fmap. by exists d. }
    rewrite Herr. by exists err.
Qed.

(** X5. What [parseErrorMessage] returns is a string whenever the [detail]
    of the error is not an object; only the [msg] or [message] of a [detail]
    object can come back as another kind of value. *)
Theorem parseErrorMessage_returns_string (error : AxiosError)
    (defaultMessage : option string) (v : json) :
  (∀ fields : list (string * json), detail_of error ≠ Some (JObj fields)) →
  parseErrorMessage error defaultMessage = Normal v →
  ∃ s : string, v = JStr s.
Proof.
  intros Hobj. unfold parseErrorMessage.
  destruct (detail_of error) as [d|]; [|intros [= <-]; eauto].
  destruct d as [|b|n|s|items|fields]; cbn [Json.truthy].
  - intros [= <-]; eauto.
  - destruct b; intros [= <-]; eauto.
  - destruct (negb (n =? 0)%Z); intros [= <-]; eauto.
  - destruct (Js.truthy_string s); intros [= <-]; eauto.
  - destruct (map_throwing message_of_item items) as [ms|]; [|discriminate].
    cbn [mbind Js.completion_bind].
    destruct (map_throwing join_item ms); [|discriminate].
    intros [= <-]; eauto.
  - by destruct (Hobj fields).
Qed.

End with_runtime.

(** A validation list with a null entry throws, and so does a list with an
    item whose message is an object that has a field named [toString]. *)
Lemma parseErrorMessage_throws_iff_witness :
  (∃ err : string,
     @parseErrorMessage reference_runtime
       {| response :=
            Some {| status := 422;
                    body := JObj [("detail", JArr [JStr "bad"; JNull])] |} |}
       None
     = Throws err)
  ∧ (∃ err : string,
       @parseErrorMessage reference_runtime Examples.unprintable None
       = Throws err).
Proof.
  split.
  - apply (proj2 (@parseErrorMessage_throws_iff reference_runtime _ None)).
    exists [JStr "bad"; JNull]. split; [reflexivity|].
    left. rewrite !elem_of_cons. auto.
  - apply (proj2 (@parseErrorMessage_throws_iff reference_runtime _ None)).
    exists [JObj [("msg", JObj [("toString", JNum 1)])]].
    split; [reflexivity|]. right.
    exists (JObj [("msg", JObj [("toString", JNum 1)])]).
    split; [apply elem_of_cons; by left|].
    by exists "TypeError".
Defined.

Lemma parseErrorMessage_returns_string_witness :
  (∀ fields : list (string * json),
     detail_of Examples.invalid ≠ Some (JObj fields))
  ∧ @parseErrorMessage reference_runtime Examples.invalid None
    = Normal (JStr "field required, too short")
  ∧ ∃ s : string, JStr "field required, too short" = JStr s.
Proof.
  assert (Hobj : ∀ fields : list (string * json),
            detail_of Examples.invalid ≠ Some (JObj fields))
    by (intros fields; discriminate).
  split; [exact Hobj|]. split; [reflexivity|].
  exact (@parseErrorMessage_returns_string reference_runtime
           Examples.invalid None _ Hobj eq_refl).
Defined.

End ErrorFacts.

(** ** More on the session store *)

Module AuthMore.
Import Browser Api AuthContext App Traces.

Lemma token_effect_storage (s : Session) :
  localStorage (browser (token_effect s)) = localStorage (browser s).
Proof. unfold token_effect. by destruct (Js.truthy (token s)). Qed.

Lemma rerender_storage (previous : option string) (s : Session) :
  localStorage (browser (rerender previous s)) = localStorage (browser s).
Proof. unfold rerender. case_decide; [done | apply token_effect_storage]. Qed.

Lemma token_effect_pathname (s : Session) :
  pathname (browser (token_effect s)) = pathname (browser s).
Proof. unfold token_effect. by destruct (Js.truthy (token s)). Qed.

Lemma rerender_pathname (previous : option string) (s : Session) :
  pathname (browser (rerender previous s)) = pathname (browser s).
Proof. unfold rerender. case_decide; [done | apply token_effect_pathname]. Qed.

Lemma token_effect_loading (s : Session) :
  loading s = false → loading (token_effect s) = false.
Proof. unfold token_effect. by destruct (Js.truthy (token s)). Qed.

Lemma rerender_loading (previous : option string) (s : Session) :
  loading s = false → loading (rerender previous s) = false.
Proof.
  unfold rerender. case_decide; [done | apply token_effect_loading].
Qed.

Lemma on_rejected_storage_token (e : AxiosError) (b : Browser.t) :
  is_401 e = false → on_rejected e b = b.
Proof. apply ApiFacts.on_rejected_other. Qed.

(** After [logout] the effect leaves [loading] cleared when the session held
    a token or had finished loading. *)
Lemma logout_rerender_loading (s : Session) :
  loading s = false →
  loading (rerender (token s) (logout s)) = false.
Proof. intros Hl. by apply rerender_loading. Qed.

(** X6. The token that [login] or [register] stores is the one the request
    interceptor signs the next requests with, and after [logout] the
    interceptor adds no header at all. *)
Theorem stored_token_signs_requests :
  (∀ (s : Session) (em pw t : string) (u : Identity)
     (config : RequestConfig),
     t ≠ EmptyString →
     headers (request_fulfilled (browser (login em pw t u s)) config)
     !! "Authorization" = Some ("Bearer " ++ t))
  ∧ (∀ (s : Session) (profile : Json.json) (t : string) (u : Identity)
       (config : RequestConfig),
       t ≠ EmptyString →
       headers (request_fulfilled (browser (register profile t u s)) config)
       !! "Authorization" = Some ("Bearer " ++ t))
  ∧ (∀ (s : Session) (config : RequestConfig),
       headers (request_fulfilled (browser (logout s)) config)
       = headers config).
Proof.
  split; [|split].
  - intros s em pw t u config Ht. unfold request_fulfilled, getItem.
    cbn. rewrite lookup_insert_eq. apply ApiFacts.with_token_truthy.
    by destruct t.
  - intros s profile t u config Ht. unfold request_fulfilled, getItem.
    cbn. rewrite lookup_insert_eq. apply ApiFacts.with_token_truthy.
    by destruct t.
  - intros s config. unfold request_fulfilled, getItem. cbn.
    by rewrite lookup_delete_eq.
Qed.

Lemma stored_token_signs_requests_witness :
  "jwt-2" ≠ EmptyString
  ∧ headers
      (request_fulfilled
         (browser (login "ana@example.com" "secret" "jwt-2"
                     (Examples.member "admin") Examples.returning))
         {| url := Some "/businesses"; method := "get"; data := NoBody;
            headers := ∅ |})
    !! "Authorization" = Some "Bearer jwt-2".
Proof.
  assert (Hne : "jwt-2" ≠ EmptyString) by discriminate.
  split; [exact Hne|].
  exact (proj1 stored_token_signs_requests Examples.returning
           "ana@example.com" "secret" "jwt-2" (Examples.member "admin")
           {| url := Some "/businesses"; method := "get"; data := NoBody;
              headers := ∅ |} Hne).
Defined.

(** X7. A login that brings a new, non-empty token makes the store ask for
    the Identity once more: after the login request and the storing of the
    token, a [GET /auth/me/] signed with the new token leaves, and one more
    answer is awaited, while [loading] is left as it was. A login answered
    with the token already held sends no such request. *)
Theorem login_fetches_identity (s : Session) (em pw t : string)
    (u : Identity) :
  (t ≠ EmptyString → token s ≠ Some t →
   ∃ (s' : Session) (login_request : RequestConfig),
     step (AuthContext.Login em pw t u) s = Some s'
     ∧ user s' = Some u
     ∧ token s' = Some t
     ∧ getItem "token" (browser s') = Some t
     ∧ loading s' = loading s
     ∧ inflight s' = S (inflight s)
     ∧ url login_request = Some "/auth/login/"
     ∧ journal (browser s')
       = app (journal (browser s))
           [Send login_request; SetItem "token" t;
            Send {| url := Some "/auth/me/"; method := "get";
                    data := NoBody;
                    headers := <["Authorization" := "Bearer " ++ t]> ∅ |}])
  ∧ (token s = Some t →
     step (AuthContext.Login em pw t u) s = Some (login em pw t u s)
     ∧ inflight (login em pw t u s) = inflight s).
Proof.
  split.
  - intros Ht Hnew.
    assert (Htruthy : Js.truthy_string t = true) by by destruct t.
    assert (Hr : rerender (token s) (login em pw t u s)
                 = fetchUser_start (login em pw t u s)).
    { unfold rerender. change (token (login em pw t u s)) with (Some t).
      case_decide as Hsame; [congruence|]. unfold token_effect.
      change (token (login em pw t u s)) with (Some t).
      cbn [Js.truthy]. by rewrite Htruthy. }
    exists (fetchUser_start (login em pw t u s)),
      (request_fulfilled (browser s)
         {| url := Some "/auth/login"; method := "post";
            data := FormBody [("username", em); ("password", pw)];
            headers :=
              {["Content-Type" := "application/x-www-form-urlencoded"]} |}).
    split; [cbn [step]; by rewrite Hr|].
    split; [reflexivity|]. split; [reflexivity|].
    split; [apply lookup_insert_eq|].
    split; [reflexivity|]. split; [reflexivity|]. split; [reflexivity|].
    unfold fetchUser_start, api_get, request_fulfilled, getItem, with_token.
    cbn. rewrite lookup_insert_eq, Htruthy. by rewrite <- !app_assoc.
  - intros Hsame. split; [|reflexivity]. cbn [step]. f_equal.
    unfold rerender. cbn [login token setUser setToken].
    case_decide; [reflexivity | congruence].
Qed.

Lemma login_fetches_identity_witness :
  "jwt-1" ≠ EmptyString
  ∧ token Examples.visitor ≠ Some "jwt-1"
  ∧ ∃ (s' : Session) (login_request : RequestConfig),
      step (AuthContext.Login "ana@example.com" "secret" "jwt-1"
              (Examples.member "client")) Examples.visitor = Some s'
      ∧ inflight s' = S (inflight Examples.visitor).
Proof.
  assert (Hne : "jwt-1" ≠ EmptyString) by discriminate.
  assert (Hnew : token Examples.visitor ≠ Some "jwt-1")
    by (vm_compute; discriminate).
  split; [exact Hne|]. split; [exact Hnew|].
  destruct (proj1 (login_fetches_identity Examples.visitor "ana@example.com"
                     "secret" "jwt-1" (Examples.member "client")) Hne Hnew)
    as (s' & req & Hstep & _ & _ & _ & _ & Hin & _).
  exists s', req. by split.
Defined.

(** X8. A visit that starts with a non-empty stored token waits for the
    Identity: [loading] stays [true], exactly one request has left, a
    [GET /auth/me/] signed with the stored token, and until its answer both
    guards show the spinner, whatever the route, with no redirect. *)
Theorem return_visit_waits (ls : gmap string string) (path t : string) :
  ls !! "token" = Some t → t ≠ EmptyString →
  loading (mount (Browser.load ls path)) = true
  ∧ user (mount (Browser.load ls path)) = None
  ∧ token (mount (Browser.load ls path)) = Some t
  ∧ inflight (mount (Browser.load ls path)) = 1
  ∧ journal (browser (mount (Browser.load ls path)))
    = [Send {| url := Some "/auth/me/"; method := "get"; data := NoBody;
               headers := <["Authorization" := "Bearer " ++ t]> ∅ |}]
  ∧ (∀ (C : Type) (allowedRoles : option (list string)) (children : C),
       ProtectedRoute (mount (Browser.load ls path)) allowedRoles children
       = Spinner)
  ∧ (∀ (C : Type) (children : C),
       PublicRoute (mount (Browser.load ls path)) children = Spinner).
Proof.
  intros Hls Ht.
  assert (Htruthy : Js.truthy_string t = true) by by destruct t.
  assert (Hm : mount (Browser.load ls path)
               = fetchUser_start (init (Browser.load ls path))).
  { unfold mount, token_effect, init, getItem. cbn. rewrite Hls.
    cbn [Js.truthy]. by rewrite Htruthy. }
  rewrite Hm. unfold fetchUser_start, api_get, request_fulfilled, init,
    getItem, with_token. cbn. rewrite Hls, Htruthy.
  by repeat split.
Qed.

Lemma return_visit_waits_witness :
  ({["token" := "jwt-0"]} : gmap string string) !! "token" = Some "jwt-0"
  ∧ "jwt-0" ≠ EmptyString
  ∧ loading Examples.returning = true
  ∧ ProtectedRoute Examples.returning (Some ["client"]) DashboardLayout
    = Spinner.
Proof.
  assert (Hls : ({["token" := "jwt-0"]} : gmap string string) !! "token"
                = Some "jwt-0") by apply lookup_singleton_eq.
  assert (Hne : "jwt-0" ≠ EmptyString) by discriminate.
  destruct (return_visit_waits {["token" := "jwt-0"]} "/client" "jwt-0"
              Hls Hne) as (Hl & _ & _ & _ & _ & Hp & _).
  split; [exact Hls|]. split; [exact Hne|]. split; [exact Hl|].
  exact (Hp Page (Some ["client"]) DashboardLayout).
Defined.

(** X9. When the answer to [/auth/me] is a failure, of any kind, the
    session ends logged out: no stored token, no token in memory, no
    Identity, [loading] cleared, and every protected route redirects to
    [/login]. *)
Theorem failed_identity_fetch_logs_out (s s' : Session) (e : AxiosError) :
  step (MeRejected e) s = Some s' →
  getItem "token" (browser s') = None
  ∧ token s' = None
  ∧ user s' = None
  ∧ loading s' = false
  ∧ (∀ (C : Type) (allowedRoles : option (list string)) (children : C),
       ProtectedRoute s' allowedRoles children
       = Navigate (Js.Str "/login") true).
Proof.
  cbn [step]. case_bool_decide; [|discriminate]. intros [= <-].
  assert (Hl : loading (rerender (token s) (fetchUser_rejected e s)) = false)
    by by apply rerender_loading.
  assert (Hu : user (rerender (token s) (fetchUser_rejected e s)) = None)
    by by rewrite AuthFacts.rerender_user.
  split.
  { unfold getItem. rewrite rerender_storage. cbn. apply lookup_delete_eq. }
  split; [by rewrite AuthFacts.rerender_token|].
  split; [exact Hu|]. split; [exact Hl|].
  intros C allowedRoles children. unfold ProtectedRoute, isAuthenticated.
  by rewrite Hl, Hu.
Qed.

Lemma failed_identity_fetch_logs_out_witness :
  ∃ s' : Session,
    step (MeRejected Examples.unauthorized) Examples.returning = Some s'
    ∧ token s' = None
    ∧ ProtectedRoute s' (Some ["client"]) DashboardLayout
      = Navigate (Js.Str "/login") true.
Proof.
  eexists. split; [vm_compute; reflexivity|].
  match goal with
  | |- token ?s' = None ∧ _ =>
      destruct (failed_identity_fetch_logs_out Examples.returning s'
                  Examples.unauthorized)
        as (_ & Ht & _ & _ & Hp); [vm_compute; reflexivity|]
  end.
  split; [exact Ht | exact (Hp Page (Some ["client"]) DashboardLayout)].
Defined.

(** X10. When the answer to [/auth/me] brings the Identity, the store
    keeps its token and its storage, clears [loading], and a protected
    route then shows its content to an allowed role and sends any other
    role to its home route; the role is one of the five, or any other name
    that is not the name of a member inherited from [Object.prototype]. *)
Theorem identity_fetch_opens_guard (s s' : Session) (u : Identity)
    (R : string) (allowed : list string) :
  step (MeResolved u) s = Some s' →
  role u = Some R →
  user s' = Some u
  ∧ token s' = token s
  ∧ localStorage (browser s') = localStorage (browser s)
  ∧ loading s' = false
  ∧ inflight s' = pred (inflight s)
  ∧ (R ∈ Policy.roles → Js.inherits (Some R) = false)
  ∧ (Js.inherits (Some R) = false →
     ∀ (C : Type) (children : C),
       ProtectedRoute s' (Some allowed) children
       = if bool_decide (R ∈ allowed) then Children children
         else Navigate (Js.Str (Policy.homeRouteFor (Some R))) true).
Proof.
  cbn [step]. case_bool_decide; [|discriminate]. intros [= <-] HR.
  repeat (split; [reflexivity|]).
  split; [apply PolicyFacts.roles_not_inherited|].
  intros Hplain C children. unfold ProtectedRoute, isAuthenticated.
  cbn [fetchUser_resolved loading user set_inflight setLoading setUser
       negb role_of mbind option_bind].
  rewrite HR. cbn [Js.includes].
  destruct (bool_decide (R ∈ allowed)); cbn [negb]; [reflexivity|].
  by rewrite PolicyFacts.ProtectedRoute_redirect_homeRouteFor.
Qed.

(** The answer opens the client dashboard to a client, and sends the client
    who asks for the staff dashboard to [/client]. *)
Lemma identity_fetch_opens_guard_witness :
  ∃ s' : Session,
    step (MeResolved (Examples.member "client")) Examples.returning
    = Some s'
    ∧ role (Examples.member "client") = Some "client"
    ∧ Js.inherits (Some "client") = false
    ∧ ProtectedRoute s' (Some ["client"]) DashboardLayout
      = Children DashboardLayout
    ∧ ProtectedRoute s' (Some ["staff"]) DashboardLayout
      = Navigate (Js.Str "/client") true.
Proof.
  eexists. split; [vm_compute; reflexivity|]. split; [reflexivity|].
  split; [reflexivity|].
  match goal with
  | |- ProtectedRoute ?s' _ _ = _ ∧ _ =>
      destruct (identity_fetch_opens_guard Examples.returning s'
                  (Examples.member "client") "client" ["client"])
        as (_ & _ & _ & _ & _ & _ & Hp);
        [vm_compute; reflexivity | reflexivity |];
      destruct (identity_fetch_opens_guard Examples.returning s'
                  (Examples.member "client") "client" ["staff"])
        as (_ & _ & _ & _ & _ & _ & Hq);
        [vm_compute; reflexivity | reflexivity |]
  end.
  split.
  - exact (Hp eq_refl Page DashboardLayout).
  - exact (Hq eq_refl Page DashboardLayout).
Defined.

Lemma step_keeps_loaded (ev : Event) (s s' : Session) :
  stays ev = true → step ev s = Some s' →
  loading s = false → loading s' = false.
Proof.
  intros Hstay Hstep Hl. destruct ev; cbn [step] in Hstep;
    try discriminate Hstay;
    try (case_bool_decide; [|discriminate]);
    injection Hstep as <-; try exact Hl; try reflexivity;
    by apply rerender_loading.
Qed.

(** X11. Once the session has finished loading, nothing the store does sets
    [loading] again: it stays [false] through logins, logouts, answers and
    failures, until the page itself is loaded anew. A login therefore asks
    for the Identity again without the guards showing the spinner. *)
Theorem loading_stays_false (evs : list Event) (s s' : Session) :
  Forall (λ ev, stays ev = true) evs →
  run evs s = Some s' →
  loading s = false →
  loading s' = false.
Proof.
  revert s. induction evs as [|ev evs IH]; intros s Hall Hrun Hl.
  - cbn in Hrun. by injection Hrun as <-.
  - apply Forall_cons in Hall as [Hev Hall]. cbn [run] in Hrun.
    destruct (step ev s) as [s1|] eqn:Hstep; [|discriminate].
    cbn in Hrun. apply (IH s1 Hall Hrun).
    by apply (step_keeps_loaded ev s).
Qed.

Lemma loading_stays_false_witness :
  Forall (λ ev, stays ev = true) Examples.late_answer
  ∧ run Examples.late_answer Examples.visitor
    = Some Examples.after_late_answer
  ∧ loading Examples.visitor = false
  ∧ loading Examples.after_late_answer = false.
Proof.
  assert (Hall : Forall (λ ev, stays ev = true) Examples.late_answer)
    by (repeat constructor).
  assert (Hrun : run Examples.late_answer Examples.visitor
                 = Some Examples.after_late_answer)
    by (vm_compute; reflexivity).
  assert (Hl : loading Examples.visitor = false)
    by (vm_compute; reflexivity).
  split; [exact Hall|]. split; [exact Hrun|]. split; [exact Hl|].
  exact (loading_stays_false _ _ _ Hall Hrun Hl).
Defined.

(** The stored token is the one kept in memory. *)
Lemma step_keeps_mirror (ev : Event) (s s' : Session) :
  quiet ev = true → step ev s = Some s' →
  getItem "token" (browser s) = token s →
  getItem "token" (browser s') = token s'.
Proof.
  unfold getItem. intros Hq Hstep Hs.
  destruct ev; cbn [step] in Hstep; cbn [quiet] in Hq;
    try (case_bool_decide; [|discriminate]).
  - injection Hstep as <-. exact Hs.
  - injection Hstep as <-.
    rewrite rerender_storage, AuthFacts.rerender_token. cbn.
    apply lookup_delete_eq.
  - injection Hstep as <-.
    rewrite rerender_storage, AuthFacts.rerender_token. cbn.
    apply lookup_insert_eq.
  - injection Hstep as <-. apply negb_true_iff in Hq.
    cbn. by rewrite (ApiFacts.on_rejected_other _ _ Hq).
  - injection Hstep as <-.
    rewrite rerender_storage, AuthFacts.rerender_token. cbn.
    apply lookup_insert_eq.
  - injection Hstep as <-.
    rewrite rerender_storage, AuthFacts.rerender_token. cbn.
    apply lookup_delete_eq.
  - injection Hstep as <-. exact Hs.
  - injection Hstep as <-. apply negb_true_iff in Hq.
    cbn. by rewrite (ApiFacts.on_rejected_other _ _ Hq).
  - injection Hstep as <-. exact Hs.
  - destruct (href (browser s)); [|discriminate]. injection Hstep as <-.
    unfold mount. by rewrite token_effect_storage,
      AuthFacts.token_effect_token.
Qed.

(** X12. The token kept in memory mirrors the stored one: in every session
    reached from a page load without a 401 answer to a call other than
    [/auth/me], [localStorage] holds exactly the token of the store's
    state. (Such a 401 removes the stored token only, until the reload it
    asks for.) *)
Theorem stored_token_mirrors_memory (ls : gmap string string)
    (path : string) (evs : list Event) (s : Session) :
  Forall (λ ev, quiet ev = true) evs →
  run evs (mount (Browser.load ls path)) = Some s →
  getItem "token" (browser s) = token s.
Proof.
  intros Hall Hrun.
  assert (Hinit : getItem "token" (browser (mount (Browser.load ls path)))
                  = token (mount (Browser.load ls path))).
  { unfold mount, getItem.
    by rewrite token_effect_storage, AuthFacts.token_effect_token. }
  revert Hall Hrun Hinit. generalize (mount (Browser.load ls path)).
  induction evs as [|ev evs IH]; intros s0 Hall Hrun Hinit.
  - cbn in Hrun. by injection Hrun as <-.
  - apply Forall_cons in Hall as [Hev Hall]. cbn [run] in Hrun.
    destruct (step ev s0) as [s1|] eqn:Hstep; [|discriminate].
    cbn in Hrun. apply (IH s1 Hall Hrun).
    by apply (step_keeps_mirror ev s0).
Qed.

Lemma stored_token_mirrors_memory_witness :
  Forall (λ ev, quiet ev = true) Examples.late_answer
  ∧ run Examples.late_answer (mount (Browser.load ∅ "/login"))
    = Some Examples.after_late_answer
  ∧ getItem "token" (browser Examples.after_late_answer)
    = token Examples.after_late_answer.
Proof.
  assert (Hall : Forall (λ ev, quiet ev = true) Examples.late_answer)
    by (repeat constructor).
  assert (Hrun : run Examples.late_answer (mount (Browser.load ∅ "/login"))
                 = Some Examples.after_late_answer)
    by (vm_compute; reflexivity).
  split; [exact Hall|]. split; [exact Hrun|].
  exact (stored_token_mirrors_memory ∅ "/login" _ _ Hall Hrun).
Defined.

(** X13. Once the session has loaded, [ProtectedRoute] with a list of
    allowed roles shows its content exactly to the sessions for which
    [hasRole] answers [true] on that list; and [hasRole] on one role name
    answers as on the list of that one name. *)
Theorem guard_agrees_with_hasRole (s : Session) (allowed : list string) :
  (loading s = false →
   ∀ (C : Type) (children : C),
     ProtectedRoute s (Some allowed) children = Children children
     ↔ hasRole (RoleList allowed) s = true)
  ∧ (∀ name : string,
       hasRole (OneRole name) s = hasRole (RoleList [name]) s).
Proof.
  split.
  - intros Hl C children. unfold ProtectedRoute, hasRole, isAuthenticated.
    rewrite Hl. destruct (user s) as [u|]; cbn [negb role_of mbind option_bind].
    + destruct (Js.includes allowed (role u)); cbn [negb]; split;
        (reflexivity || discriminate).
    + split; discriminate.
  - intros name. unfold hasRole. destruct (user s) as [u|]; [|reflexivity].
    unfold Js.includes. destruct (role u) as [r|].
    + apply bool_decide_ext. rewrite list_elem_of_singleton.
      split; [by intros [= ->] | by intros ->].
    + by apply bool_decide_eq_false.
Qed.

Lemma guard_agrees_with_hasRole_witness :
  loading (Examples.signed_in "staff") = false
  ∧ hasRole (RoleList ["staff"]) (Examples.signed_in "staff") = true
  ∧ ProtectedRoute (Examples.signed_in "staff") (Some ["staff"])
      DashboardLayout
    = Children DashboardLayout.
Proof.
  assert (Hl : loading (Examples.signed_in "staff") = false)
    by (vm_compute; reflexivity).
  assert (Hr : hasRole (RoleList ["staff"]) (Examples.signed_in "staff")
               = true) by (vm_compute; reflexivity).
  split; [exact Hl|]. split; [exact Hr|].
  exact (proj2 (proj1 (guard_agrees_with_hasRole
                         (Examples.signed_in "staff") ["staff"])
                  Hl Page DashboardLayout) Hr).
Defined.

(** A 401 received on a dashboard, and then the reload. *)
Lemma unauthorized_then_reload_witness :
  is_401 Examples.unauthorized = true
  ∧ pathname (browser Examples.after_late_answer) ≠ "/login"
  ∧ ∃ s' : Session,
      run [ApiRejected Examples.unauthorized; Navigated]
        Examples.after_late_answer = Some s'
      ∧ getItem "token" (browser s') = None
      ∧ token s' = None
      ∧ user s' = None
      ∧ loading s' = false.
Proof.
  assert (He : is_401 Examples.unauthorized = true) by reflexivity.
  assert (Hp : pathname (browser Examples.after_late_answer) ≠ "/login")
    by (vm_compute; discriminate).
  split; [exact He|]. split; [exact Hp|].
  exact (AuthFacts.unauthorized_then_reload Examples.after_late_answer
           Examples.unauthorized He Hp).
Defined.

End AuthMore.

(** ** The navigation shell and the pages *)

Module ShellFacts.
Import Browser Api AuthContext App Routes Shell Pages.

Lemma Login_redirectMap_agrees :
  Login_redirectMap = ProtectedRoute_redirectMap.
Proof. reflexivity. Qed.

Lemma Login_redirect_ProtectedRoute_redirect (role : option string) :
  Login_redirect role = ProtectedRoute_redirect role.
Proof. unfold Login_redirect. by rewrite Login_redirectMap_agrees. Qed.

Lemma Login_redirect_homeRouteFor (role : option string) :
  Js.inherits role = false →
  Login_redirect role = Js.Str (Policy.homeRouteFor role).
Proof.
  rewrite Login_redirect_ProtectedRoute_redirect.
  apply PolicyFacts.ProtectedRoute_redirect_homeRouteFor.
Qed.

Lemma basePath_homeRouteFor (R : string) :
  R ∈ Policy.roles → basePath (Some R) = Policy.homeRouteFor (Some R).
Proof.
  unfold Policy.roles. rewrite !elem_of_cons, elem_of_nil.
  intros [->|[->|[->|[->|[->|[]]]]]]; reflexivity.
Qed.

(** X14. The home route of a role is computed in three places: the
    [redirectMap] of the guards, the [redirectMap] of [Login] and the
    [basePath] of [DashboardLayout]. The two maps agree on every role value;
    [basePath] agrees with them on the five roles. For any other non-empty
    role name [basePath] is [/] followed by the name, where the maps answer
    [/], or, for the name of a member inherited from [Object.prototype],
    that member. *)
Theorem home_route_three_ways (role : option string) :
  Login_redirect role = ProtectedRoute_redirect role
  ∧ Login_redirect role = PublicRoute_redirect role
  ∧ (∀ R : string, role = Some R → R ∈ Policy.roles →
       Login_redirect role = Js.Str (basePath role))
  ∧ (∀ R : string, role = Some R → R ∉ Policy.roles → R ≠ EmptyString →
       basePath role = "/" ++ R
       ∧ (Js.inherits role = false → Login_redirect role = Js.Str "/")
       ∧ (Js.inherits role = true → Login_redirect role = Js.Member R)
       ∧ Login_redirect role ≠ Js.Str (basePath role)).
Proof.
  split; [|split; [|split]].
  - apply Login_redirect_ProtectedRoute_redirect.
  - rewrite Login_redirect_ProtectedRoute_redirect.
    unfold PublicRoute_redirect. by rewrite PolicyFacts.redirectMaps_agree.
  - intros R -> HR.
    rewrite Login_redirect_homeRouteFor
      by by apply PolicyFacts.roles_not_inherited.
    by rewrite basePath_homeRouteFor.
  - intros R -> HR Hne.
    assert (Hb : basePath (Some R) = "/" ++ R).
    { unfold basePath. destruct (String.eqb R "super_admin") eqn:He;
        [|reflexivity].
      apply String.eqb_eq in He. subst R. exfalso. apply HR.
      apply (bool_decide_unpack _). vm_compute. exact I. }
    assert (Hother : Policy.homeRouteFor (Some R) = "/").
    { apply PolicyFacts.homeRouteFor_other. intros Hin.
      apply list_elem_of_fmap in Hin as (r & [= <-] & Hr). contradiction. }
    rewrite Login_redirect_ProtectedRoute_redirect,
      PolicyFacts.ProtectedRoute_redirect_cases, Hother, Hb.
    split; [reflexivity|].
    destruct (Js.inherits (Some R)).
    + split; [done|]. split; [done | discriminate].
    + split; [done|]. split; [done|].
      destruct R; [congruence | discriminate].
Qed.

Lemma home_route_three_ways_witness :
  "business" ∈ Policy.roles
  ∧ Login_redirect (Some "business") = Js.Str (basePath (Some "business"))
  ∧ ("guest" ∉ Policy.roles)
  ∧ basePath (Some "guest") = "/guest"
  ∧ Login_redirect (Some "guest") = Js.Str "/"
  ∧ ("toString" ∉ Policy.roles)
  ∧ basePath (Some "toString") = "/toString"
  ∧ Login_redirect (Some "toString") = Js.Member "toString".
Proof.
  assert (Hin : "business" ∈ Policy.roles)
    by (apply (bool_decide_unpack _); vm_compute; exact I).
  assert (Hout : "guest" ∉ Policy.roles)
    by (apply (bool_decide_unpack _); vm_compute; exact I).
  assert (Hodd : "toString" ∉ Policy.roles)
    by (apply (bool_decide_unpack _); vm_compute; exact I).
  assert (Hne : "guest" ≠ EmptyString) by discriminate.
  assert (Hne' : "toString" ≠ EmptyString) by discriminate.
  destruct (home_route_three_ways (Some "business")) as (_ & _ & Hfive & _).
  destruct (home_route_three_ways (Some "guest")) as (_ & _ & _ & Hother).
  destruct (Hother "guest" eq_refl Hout Hne) as (Hb & Hl & _ & _).
  destruct (home_route_three_ways (Some "toString"))
    as (_ & _ & _ & Hmember).
  destruct (Hmember "toString" eq_refl Hodd Hne') as (Hb' & _ & Hl' & _).
  split; [exact Hin|]. split; [exact (Hfive "business" eq_refl Hin)|].
  split; [exact Hout|]. split; [exact Hb|]. split; [exact (Hl eq_refl)|].
  split; [exact Hodd|]. split; [exact Hb' | exact (Hl' eq_refl)].
Defined.

(** For a role named as an inherited member [getNavItems] throws, and for
    any other name outside the five it lists the dashboard entry alone. *)
Lemma getNavItems_other (R : string) :
  R ∉ Policy.roles →
  getNavItems (Some R)
  = if Js.inherits (Some R) then Throws "TypeError" else Normal baseItems.
Proof.
  unfold Policy.roles. rewrite !not_elem_of_cons. intros (?&?&?&?&?&_).
  unfold getNavItems, Js.index, roleItems. simplify_map_eq.
  by destruct (bool_decide (R ∈ Js.Object_prototype)).
Qed.

(** X15. No dead links in the sidebar: for each of the five roles, every
    entry that [getNavItems] lists leads to a path that [AppRoutes] declares
    under the dashboard of that role, whose guard admits the role; so does
    the settings entry of the user menu. *)
Theorem sidebar_links_declared (R : string) (item : NavItem) :
  R ∈ Policy.roles →
  (∃ items : list NavItem, getNavItems (Some R) = Normal items)
  ∧ (∀ items : list NavItem,
       getNavItems (Some R) = Normal items →
       item ∈ items →
       ∃ (screen : Screen) (allowed : list string),
         screen_at (fullPath (basePath (Some R)) item)
         = Some (basePath (Some R), screen)
         ∧ (basePath (Some R), Protected allowed DashboardLayout) ∈ AppRoutes
         ∧ R ∈ allowed)
  ∧ screen_at (settings_target (Some R))
    = Some (basePath (Some R), Settings).
Proof.
  unfold Policy.roles. rewrite !elem_of_cons, elem_of_nil.
  intros [->|[->|[->|[->|[->|[]]]]]];
    match goal with
    | |- context [getNavItems ?r] =>
        let l := eval vm_compute in (getNavItems r) in
        change (getNavItems r) with l
    end;
    (split; [eexists; reflexivity|]);
    (split; [|vm_compute; reflexivity]);
    intros items [= <-];
    rewrite !elem_of_cons, elem_of_nil; intros Hitem;
    repeat (destruct Hitem as [->|Hitem]); try contradiction;
    eexists _, _;
    (split; [vm_compute; reflexivity|]);
    (split;
      [apply GuardFacts.AppRoutes_protected; split; [reflexivity|];
       first [ left; split; reflexivity
             | right; left; split; reflexivity
             | right; right; left; split; reflexivity
             | right; right; right; split; reflexivity ]
      |rewrite !elem_of_cons; auto 10]).
Qed.

Lemma sidebar_links_declared_witness :
  "staff" ∈ Policy.roles
  ∧ getNavItems (Some "staff")
    = Normal [ mkNavItem "LayoutDashboard" "nav.dashboard" EmptyString;
               mkNavItem "Calendar" "nav.calendar" "calendar";
               mkNavItem "Settings" "nav.settings" "settings" ]
  ∧ (∃ (screen : Screen) (allowed : list string),
       screen_at
         (fullPath (basePath (Some "staff"))
            (mkNavItem "Calendar" "nav.calendar" "calendar"))
       = Some (basePath (Some "staff"), screen)
       ∧ (basePath (Some "staff"), Protected allowed DashboardLayout)
         ∈ AppRoutes
       ∧ "staff" ∈ allowed)
  ∧ screen_at (settings_target (Some "staff")) = Some ("/staff", Settings).
Proof.
  assert (Hin : "staff" ∈ Policy.roles)
    by (apply (bool_decide_unpack _); vm_compute; exact I).
  assert (Hitems : getNavItems (Some "staff")
            = Normal [ mkNavItem "LayoutDashboard" "nav.dashboard" EmptyString;
                       mkNavItem "Calendar" "nav.calendar" "calendar";
                       mkNavItem "Settings" "nav.settings" "settings" ])
    by (vm_compute; reflexivity).
  destruct (sidebar_links_declared "staff"
              (mkNavItem "Calendar" "nav.calendar" "calendar") Hin)
    as (_ & Hitem & Hset).
  split; [exact Hin|]. split; [exact Hitems|].
  split; [|exact Hset].
  apply (Hitem _ Hitems). rewrite !elem_of_cons. auto.
Defined.

Lemma startsWith_append (p s : string) :
  Config.startsWith p (p ++ s) = true.
Proof.
  induction p as [|a p IH]; [by destruct s|].
  rewrite ApiFacts.append_cons. cbn [Config.startsWith].
  by rewrite Ascii.eqb_refl, IH.
Qed.

Lemma fullPath_with_path (base : string) (item : NavItem) :
  path item ≠ EmptyString → fullPath base item = base ++ "/" ++ path item.
Proof. unfold fullPath. by destruct (path item). Qed.

(** X16. The highlighted entry of the sidebar. In the mobile menu an entry
    is active exactly on its own path. In the desktop sidebar it is active
    there too, and an entry other than the dashboard one stays active on
    every path that continues its own (a detail route under a list
    screen), while the dashboard entry is active on the dashboard path
    only. On the own path of an entry of a role's menu no other entry of
    that menu is active. *)
Theorem active_link (pathname base : string) (item : NavItem) :
  (isActive_mobile pathname base item = true
   ↔ pathname = fullPath base item)
  ∧ (isActive_mobile pathname base item = true →
     isActive pathname base item = true)
  ∧ (∀ rest : string, path item ≠ EmptyString →
       isActive (fullPath base item ++ rest) base item = true)
  ∧ (path item = EmptyString →
     (isActive pathname base item = true ↔ pathname = base))
  ∧ (∀ R : string,
       R ∈ Policy.roles →
       ∃ items : list NavItem,
         getNavItems (Some R) = Normal items
         ∧ ∀ other : NavItem,
             item ∈ items → other ∈ items →
             isActive (fullPath (basePath (Some R)) item) (basePath (Some R))
               other = true →
             other = item).
Proof.
  split; [|split; [|split; [|split]]].
  - unfold isActive_mobile. apply String.eqb_eq.
  - unfold isActive, isActive_mobile. by intros ->.
  - intros rest Hp. unfold isActive.
    rewrite (fullPath_with_path base item Hp).
    assert (Ht : Js.truthy_string (path item) = true)
      by by destruct (path item).
    rewrite Ht, startsWith_append. by rewrite orb_true_r.
  - intros Hp. unfold isActive, fullPath. rewrite Hp.
    cbn [Js.truthy_string andb]. rewrite orb_false_r.
    apply String.eqb_eq.
  - intros R. unfold Policy.roles.
    rewrite !elem_of_cons, elem_of_nil.
    intros [->|[->|[->|[->|[->|[]]]]]];
      match goal with
      | |- context [getNavItems ?r] =>
          let l := eval vm_compute in (getNavItems r) in
          change (getNavItems r) with l
      end;
      (eexists; split; [reflexivity|]); intros other;
      rewrite !elem_of_cons, !elem_of_nil; intros Hi Hj;
      repeat (destruct Hi as [->|Hi]); try contradiction;
      repeat (destruct Hj as [->|Hj]); try contradiction;
      intros Hact; try reflexivity; vm_compute in Hact; discriminate.
Qed.

Lemma active_link_witness :
  path (mkNavItem "UserCog" "nav.staff" "staff") ≠ EmptyString
  ∧ isActive "/admin/staff/42" "/admin"
      (mkNavItem "UserCog" "nav.staff" "staff") = true
  ∧ isActive_mobile "/admin/staff/42" "/admin"
      (mkNavItem "UserCog" "nav.staff" "staff") = false.
Proof.
  assert (Hp : path (mkNavItem "UserCog" "nav.staff" "staff") ≠ EmptyString)
    by discriminate.
  split; [exact Hp|]. split; [|reflexivity].
  exact (proj1 (proj2 (proj2 (active_link "/admin/staff/42" "/admin"
                                (mkNavItem "UserCog" "nav.staff" "staff"))))
           "/42" Hp).
Defined.

(** X17. The quick link of the [Dashboard] page to the appointments: it is
    not shown to a client; for [super_admin], [admin] and [business] it
    leads to the appointments screen of their dashboard; for [staff] it
    leads to [/staff/appointments], which [AppRoutes] does not declare (the
    staff dashboard declares [calendar] and [settings] only). *)
Theorem dashboard_quick_link (R : string) :
  R ∈ Policy.roles →
  (R = "client" → Dashboard_quick_link (Some R) = None)
  ∧ (R ≠ "client" →
     Dashboard_quick_link (Some R)
     = Some (basePath (Some R) ++ "/appointments"))
  ∧ (R ≠ "client" → R ≠ "staff" →
     screen_at (basePath (Some R) ++ "/appointments")
     = Some (basePath (Some R), Appointments))
  ∧ (R = "staff" →
     Dashboard_quick_link (Some R) = Some "/staff/appointments"
     ∧ screen_at "/staff/appointments" = None).
Proof.
  unfold Policy.roles. rewrite !elem_of_cons, elem_of_nil.
  intros [->|[->|[->|[->|[->|[]]]]]];
    (split; [intros H; try discriminate H; reflexivity|]);
    (split; [intros H; try (by destruct H); reflexivity|]);
    (split; [intros H1 H2; try (by destruct H1); try (by destruct H2);
             vm_compute; reflexivity|]);
    intros H; try discriminate H; split; vm_compute; reflexivity.
Qed.

Lemma dashboard_quick_link_witness :
  "staff" ∈ Policy.roles
  ∧ Dashboard_quick_link (Some "staff") = Some "/staff/appointments"
  ∧ screen_at "/staff/appointments" = None.
Proof.
  assert (Hin : "staff" ∈ Policy.roles)
    by (apply (bool_decide_unpack _); vm_compute; exact I).
  split; [exact Hin|].
  exact (proj2 (proj2 (proj2 (dashboard_quick_link "staff" Hin))) eq_refl).
Defined.

End ShellFacts.

(** ** The login, register and logout handlers *)

Module PagesFacts.
Import Browser Api AuthContext App Routes Shell Pages.

Lemma login_loading (em pw t : string) (u : Identity) (s : Session) :
  loading (rerender (token s) (login em pw t u s)) = loading s
  ∨ loading (rerender (token s) (login em pw t u s)) = false.
Proof.
  unfold rerender. case_decide; [by left|]. unfold token_effect.
  destruct (Js.truthy _); [by left | by right].
Qed.

(** What a protected route shows to a loaded session with an Identity. *)
Lemma ProtectedRoute_loaded {C} (s : Session) (u : Identity)
    (allowed : list string) (children : C) :
  loading s = false → user s = Some u →
  ProtectedRoute s (Some allowed) children
  = if Js.includes allowed (role u) then Children children
    else Navigate (ProtectedRoute_redirect (role u)) true.
Proof.
  intros Hl Hu. unfold ProtectedRoute, isAuthenticated. rewrite Hl, Hu.
  cbn [negb role_of mbind option_bind].
  by destruct (Js.includes allowed (role u)).
Qed.

(** X18. A successful login lands on a screen that lets the user in: for an
    Identity of one of the five roles, [handleSubmit] of [Login] shows the
    welcome toast and navigates to the home route of the role, which
    [AppRoutes] declares as a dashboard whose guard then shows its content
    to the session that the login leaves. *)
Theorem login_lands_on_own_dashboard (s : Session) (em pw t : string)
    (u : Identity) (R : string) :
  role u = Some R → R ∈ Policy.roles → loading s = false →
  destination (Login_handleSubmit em pw (Resolved (t, u)) s)
  = Some (Js.Str (Policy.homeRouteFor (Some R)))
  ∧ pathname (browser (after (Login_handleSubmit em pw (Resolved (t, u)) s)))
    = Policy.homeRouteFor (Some R)
  ∧ toast (Login_handleSubmit em pw (Resolved (t, u)) s)
    = ToastSuccess (Translated "auth.welcomeBack")
  ∧ user (after (Login_handleSubmit em pw (Resolved (t, u)) s)) = Some u
  ∧ ∃ allowed : list string,
      (Policy.homeRouteFor (Some R), Protected allowed DashboardLayout)
      ∈ AppRoutes
      ∧ render (after (Login_handleSubmit em pw (Resolved (t, u)) s))
          (Protected allowed DashboardLayout)
        = Children DashboardLayout.
Proof.
  intros HR Hin Hl. cbn [Login_handleSubmit destination after toast].
  rewrite HR, ShellFacts.Login_redirect_homeRouteFor
    by by apply PolicyFacts.roles_not_inherited.
  split; [reflexivity|]. split; [reflexivity|]. split; [reflexivity|].
  split; [unfold navigate; cbn; by rewrite AuthFacts.rerender_user|].
  destruct (GuardFacts.home_route_admits_role R Hin)
    as (allowed & Hroute & Hadm).
  exists allowed. split; [exact Hroute|]. cbn [render].
  rewrite (ProtectedRoute_loaded _ u).
  - rewrite HR. cbn [Js.includes]. by rewrite bool_decide_eq_true_2.
  - unfold navigate. cbn. apply AuthMore.rerender_loading. exact Hl.
  - unfold navigate. cbn. by rewrite AuthFacts.rerender_user.
Qed.

Lemma login_lands_on_own_dashboard_witness :
  role (Examples.member "business") = Some "business"
  ∧ "business" ∈ Policy.roles
  ∧ loading Examples.visitor = false
  ∧ destination (Login_handleSubmit "ana@example.com" "secret"
                   (Resolved ("jwt-1", Examples.member "business"))
                   Examples.visitor)
    = Some (Js.Str "/business").
Proof.
  assert (Hin : "business" ∈ Policy.roles)
    by (apply (bool_decide_unpack _); vm_compute; exact I).
  assert (Hl : loading Examples.visitor = false)
    by (vm_compute; reflexivity).
  split; [reflexivity|]. split; [exact Hin|]. split; [exact Hl|].
  exact (proj1 (login_lands_on_own_dashboard Examples.visitor
                  "ana@example.com" "secret" "jwt-1"
                  (Examples.member "business") "business" eq_refl Hin Hl)).
Defined.

(** X19. A registration whose two passwords agree always navigates to
    [/client], whatever role the new Identity has: the client dashboard
    then shows its content to a client and sends any other role on to its
    own home route (a role of the five, or any other name that is not the
    name of a member inherited from [Object.prototype]). When the two
    passwords differ nothing is sent and the session is left as it is. *)
Theorem register_lands_on_client (f : RegisterForm) (t : string)
    (u : Identity) (s : Session) (R : string) :
  (form_password f = form_confirmPassword f →
   role u = Some R → loading s = false →
   destination (Register_handleSubmit f (Resolved (t, u)) s)
   = Some (Js.Str "/client")
   ∧ pathname (browser (after (Register_handleSubmit f (Resolved (t, u)) s)))
     = "/client"
   ∧ (R = "client" →
      render (after (Register_handleSubmit f (Resolved (t, u)) s))
        (Protected ["client"] DashboardLayout)
      = Children DashboardLayout)
   ∧ (R ≠ "client" → Js.inherits (Some R) = false →
      render (after (Register_handleSubmit f (Resolved (t, u)) s))
        (Protected ["client"] DashboardLayout)
      = Navigate (Js.Str (Policy.homeRouteFor (Some R))) true))
  ∧ (form_password f ≠ form_confirmPassword f →
     ∀ answer : settled (string * Identity) AxiosError,
       after (Register_handleSubmit f answer s) = s
       ∧ destination (Register_handleSubmit f answer s) = None
       ∧ toast (Register_handleSubmit f answer s)
         = ToastError (Translated "errors.passwordMismatch")).
Proof.
  split.
  - intros Hpw HR Hl. unfold Register_handleSubmit.
    apply String.eqb_eq in Hpw. rewrite Hpw.
    cbn [negb destination after].
    split; [reflexivity|]. split; [reflexivity|]. cbn [render].
    rewrite (ProtectedRoute_loaded _ u).
    + rewrite HR. cbn [Js.includes].
      rewrite (bool_decide_ext (R ∈ ["client"]) (R = "client"))
        by apply list_elem_of_singleton.
      split.
      * intros HRc. by rewrite bool_decide_eq_true_2.
      * intros HRc Hplain. rewrite bool_decide_eq_false_2 by done.
        by rewrite PolicyFacts.ProtectedRoute_redirect_homeRouteFor.
    + unfold navigate. cbn. apply AuthMore.rerender_loading. exact Hl.
    + unfold navigate. cbn. by rewrite AuthFacts.rerender_user.
  - intros Hpw answer. unfold Register_handleSubmit.
    apply String.eqb_neq in Hpw. by rewrite Hpw.
Qed.

Lemma register_lands_on_client_witness :
  form_password Samples.form = form_confirmPassword Samples.form
  ∧ role (Examples.member "staff") = Some "staff"
  ∧ loading Examples.visitor = false
  ∧ destination (Register_handleSubmit Samples.form
                   (Resolved ("jwt-3", Examples.member "staff"))
                   Examples.visitor) = Some (Js.Str "/client")
  ∧ "staff" ≠ "client"
  ∧ Js.inherits (Some "staff") = false
  ∧ render (after (Register_handleSubmit Samples.form
                     (Resolved ("jwt-3", Examples.member "staff"))
                     Examples.visitor))
      (Protected ["client"] DashboardLayout)
    = Navigate (Js.Str "/staff") true.
Proof.
  assert (Hl : loading Examples.visitor = false)
    by (vm_compute; reflexivity).
  assert (Hne : "staff" ≠ "client") by discriminate.
  destruct (proj1 (register_lands_on_client Samples.form "jwt-3"
                     (Examples.member "staff") Examples.visitor "staff")
              eq_refl eq_refl Hl) as (Hd & _ & _ & Hr).
  split; [reflexivity|]. split; [reflexivity|]. split; [exact Hl|].
  split; [exact Hd|]. split; [exact Hne|]. split; [reflexivity|].
  exact (Hr Hne eq_refl).
Defined.

(** X20. A login rejected with 401 on the login page does not reload it:
    the response interceptor asks for no navigation there, the store keeps
    its state, an error toast is shown with the server's [detail] as it
    came (or the translated default), and no route change follows. *)
Theorem rejected_login_stays (s : Session) (em pw : string)
    (e : AxiosError) :
  is_401 e = true → pathname (browser s) = "/login" →
  href (browser (after (Login_handleSubmit em pw (Rejected e) s)))
  = href (browser s)
  ∧ pathname (browser (after (Login_handleSubmit em pw (Rejected e) s)))
    = "/login"
  ∧ getItem "token"
      (browser (after (Login_handleSubmit em pw (Rejected e) s))) = None
  ∧ user (after (Login_handleSubmit em pw (Rejected e) s)) = user s
  ∧ token (after (Login_handleSubmit em pw (Rejected e) s)) = token s
  ∧ loading (after (Login_handleSubmit em pw (Rejected e) s)) = loading s
  ∧ destination (Login_handleSubmit em pw (Rejected e) s) = None
  ∧ toast (Login_handleSubmit em pw (Rejected e) s)
    = ToastError (detail_or_serverError e).
Proof.
  intros He Hp.
  assert (Hb : browser (after (Login_handleSubmit em pw (Rejected e) s))
               = removeItem "token"
                   (api_post "/auth/login"
                      (FormBody [("username", em); ("password", pw)])
                      {["Content-Type" :=
                          "application/x-www-form-urlencoded"]}
                      (browser s))).
  { cbn [Login_handleSubmit after on_browser browser].
    rewrite (ApiFacts.on_rejected_401 e _ He).
    change (pathname (api_post "/auth/login"
                        (FormBody [("username", em); ("password", pw)])
                        {["Content-Type" :=
                            "application/x-www-form-urlencoded"]}
                        (browser s)))
      with (pathname (browser s)).
    by rewrite Hp. }
  rewrite !Hb.
  split; [reflexivity|]. split; [exact Hp|].
  split; [apply lookup_delete_eq|]. by repeat split.
Qed.

Lemma rejected_login_stays_witness :
  is_401 Examples.unauthorized = true
  ∧ pathname (browser Examples.visitor) = "/login"
  ∧ href (browser (after (Login_handleSubmit "ana@example.com" "wrong"
                            (Rejected Examples.unauthorized)
                            Examples.visitor)))
    = href (browser Examples.visitor)
  ∧ destination (Login_handleSubmit "ana@example.com" "wrong"
                   (Rejected Examples.unauthorized) Examples.visitor)
    = None.
Proof.
  assert (He : is_401 Examples.unauthorized = true) by reflexivity.
  assert (Hp : pathname (browser Examples.visitor) = "/login")
    by (vm_compute; reflexivity).
  destruct (rejected_login_stays Examples.visitor "ana@example.com" "wrong"
              Examples.unauthorized He Hp)
    as (Hh & _ & _ & _ & _ & _ & Hd & _).
  split; [exact He|]. split; [exact Hp|]. split; [exact Hh | exact Hd].
Defined.

(** X21. After [handleLogout], from a session that had finished loading,
    the landing page is shown, the store holds no token and no Identity
    and storage holds no token; every protected route then redirects to
    [/login] and the login and register forms are shown again. *)
Theorem handleLogout_closes_dashboards (s : Session) :
  loading s = false →
  pathname (browser (handleLogout s)) = "/"
  ∧ getItem "token" (browser (handleLogout s)) = None
  ∧ token (handleLogout s) = None
  ∧ user (handleLogout s) = None
  ∧ (∀ (C : Type) (allowedRoles : option (list string)) (children : C),
       ProtectedRoute (handleLogout s) allowedRoles children
       = Navigate (Js.Str "/login") true)
  ∧ (∀ (C : Type) (children : C),
       PublicRoute (handleLogout s) children = Children children).
Proof.
  intros Hl.
  assert (Hl' : loading (handleLogout s) = false).
  { unfold handleLogout. cbn. by apply AuthMore.rerender_loading. }
  assert (Hu : user (handleLogout s) = None).
  { unfold handleLogout. cbn. by rewrite AuthFacts.rerender_user. }
  split; [reflexivity|]. split.
  { unfold handleLogout, getItem. cbn. rewrite AuthMore.rerender_storage.
    cbn. apply lookup_delete_eq. }
  split.
  { unfold handleLogout. cbn. by rewrite AuthFacts.rerender_token. }
  split; [exact Hu|]. split.
  - intros C allowedRoles children. unfold ProtectedRoute, isAuthenticated.
    by rewrite Hl', Hu.
  - intros C children. unfold PublicRoute, isAuthenticated.
    by rewrite Hl', Hu.
Qed.

Lemma handleLogout_closes_dashboards_witness :
  loading Samples.on_dashboard = false
  ∧ user Samples.on_dashboard = Some (Examples.member "client")
  ∧ ProtectedRoute (handleLogout Samples.on_dashboard) (Some ["client"])
      DashboardLayout
    = Navigate (Js.Str "/login") true
  ∧ PublicRoute (handleLogout Samples.on_dashboard) App.Login
    = Children App.Login.
Proof.
  assert (Hl : loading Samples.on_dashboard = false)
    by (vm_compute; reflexivity).
  destruct (handleLogout_closes_dashboards Samples.on_dashboard Hl)
    as (_ & _ & _ & _ & Hp & Hq).
  split; [exact Hl|]. split; [vm_compute; reflexivity|].
  split; [exact (Hp Page (Some ["client"]) DashboardLayout)|].
  exact (Hq Page App.Login).
Defined.

End PagesFacts.
